(** * kube_ovn_api: a REST/WebSocket facade over the Kube-OVN custom resources

    A shallow embedding of [src/kube_ovn_api.py].

    - JSON documents ([Dict[str, Any]], manifests, remote replies) are the
      inductive type [json]; a Python [dict] with string keys is a
      [gmap string json].
    - The remote control plane ([client.CustomObjectsApi]) is external.  A
      handler is a program [prog] that issues remote calls and continues
      with whatever the remote answers: a returned document or a raised
      exception.  Running a program against a remote ([run]) records the
      calls that were made.
    - [try ... except ApiException ... except Exception ...] is the error
      layer [except] over [prog].
    - Routing is first match over the routes in the order the source
      registers them.
    - The watch relay is a machine driven by what the watch stream and the
      socket answer. *)

From stdpp Require Import gmap strings list fin_maps.
From Stdlib Require Import ZArith Ascii String.

Set Warnings "-register-all".
Local Open Scope string_scope.

(** ** Strings: [str.capitalize] *)

Module PyStr.

Definition is_lower (c : ascii) : bool :=
  let n := nat_of_ascii c in (97 <=? n)%nat && (n <=? 122)%nat.

Definition is_upper (c : ascii) : bool :=
  let n := nat_of_ascii c in (65 <=? n)%nat && (n <=? 90)%nat.

Definition upper_char (c : ascii) : ascii :=
  if is_lower c then ascii_of_nat (nat_of_ascii c - 32) else c.

Definition lower_char (c : ascii) : ascii :=
  if is_upper c then ascii_of_nat (nat_of_ascii c + 32) else c.

Fixpoint lower (s : string) : string :=
  match s with
  | EmptyString => EmptyString
  | String c rest => String (lower_char c) (lower rest)
  end.

(** [s.capitalize()] on ASCII text: the first character in upper case and
    the rest in lower case.  Characters are bytes here and only the ASCII
    letters change case, so this is [str.capitalize] on the strings that
    [is_ascii] accepts and on no others: what the interpreter does to
    characters outside ASCII is not modelled. *)
Definition capitalize (s : string) : string :=
  match s with
  | EmptyString => EmptyString
  | String c rest => String (upper_char c) (lower rest)
  end.

(** Every character is an ASCII character (below 128). *)
Fixpoint is_ascii (s : string) : bool :=
  match s with
  | EmptyString => true
  | String c rest => (nat_of_ascii c <? 128)%nat && is_ascii rest
  end.

(** Truth value of a string: empty is false. *)
Definition truthy (s : string) : bool :=
  match s with EmptyString => false | _ => true end.

End PyStr.

(** ** JSON documents *)

Inductive json : Type :=
| JNull
| JBool (b : bool)
| JInt (n : Z)
| JFloat (bits : Z)
| JStr (s : string)
| JList (l : list json)
| JDict (d : gmap string json).

(** ** Exceptions *)

(** [client.rest.ApiException] carries the remote's HTTP status; [text] is
  [str(e)].  Every other exception is an [Exception] with its text. *)
Inductive exn : Type :=
| ApiException (status : Z) (text : string)
| Exception (text : string).

Inductive except (A : Type) : Type :=
| Value (a : A)
| Raised (e : exn).
Arguments Value {A} a.
Arguments Raised {A} e.

(** ** What Python does on documents *)

Module Py.

Definition type_name (v : json) : string :=
  match v with
  | JNull => "NoneType"
  | JBool _ => "bool"
  | JInt _ => "int"
  | JFloat _ => "float"
  | JStr _ => "str"
  | JList _ => "list"
  | JDict _ => "dict"
  end.

(** [v[key]] for a string key: [KeyError] on a dict without the key
    ([str(e)] is the quoted key), [TypeError] on everything that is not a
    dict (texts of CPython 3.11 and later). *)
Definition getitem (v : json) (key : string) : except json :=
  match v with
  | JDict d =>
      match d !! key with
      | Some x => Value x
      | None => Raised (Exception ("'" +:+ key +:+ "'"))
      end
  | JList _ => Raised (Exception "list indices must be integers or slices, not str")
  | JStr _ => Raised (Exception "string indices must be integers, not 'str'")
  | _ => Raised (Exception ("'" +:+ type_name v +:+ "' object is not subscriptable"))
  end.

(** [dict.update]: every item of [other] is stored into [d]. *)
Definition dict_update (d other : gmap string json) : gmap string json :=
  map_fold (λ k v acc, <[k:=v]> acc) d other.

(** [v.update(other)]: only a dict has the method. *)
Definition update (v : json) (other : gmap string json) : except json :=
  match v with
  | JDict d => Value (JDict (dict_update d other))
  | _ => Raised (Exception ("'" +:+ type_name v +:+ "' object has no attribute 'update'"))
  end.

(** The object [v] after the value under [key] was mutated into [x]. *)
Definition setitem (v : json) (key : string) (x : json) : json :=
  match v with
  | JDict d => JDict (<[key:=x]> d)
  | _ => v
  end.

End Py.

(** ** The remote control plane *)

Inductive call : Type :=
| list_cluster_custom_object (group version plural : string)
| get_cluster_custom_object (group version plural name : string)
| create_cluster_custom_object (group version plural : string) (body : json)
| patch_cluster_custom_object (group version plural name : string) (body : json)
| delete_cluster_custom_object (group version plural name : string).

(** A program: return, or issue a remote call and go on with its reply. *)
Inductive prog (A : Type) : Type :=
| Ret (a : A)
| Call (c : call) (k : except json → prog A).
Arguments Ret {A} a.
Arguments Call {A} c k.

Fixpoint bind {A B} (p : prog (except A)) (f : A → prog (except B)) : prog (except B) :=
match p with
| Ret (Value a) => f a
| Ret (Raised e) => Ret (Raised e)
| Call c k => Call c (λ r, bind (k r) f)
end.

Definition ret {A} (a : A) : prog (except A) := Ret (Value a).
Definition lift {A} (x : except A) : prog (except A) := Ret x.
Definition api (c : call) : prog (except json) := Call c Ret.

Notation "x <~ p ;; q" := (bind p (λ x, q))
(at level 100, p at next level, right associativity, only parsing).

(** [try: body  except ApiException as e: h1  except Exception as e: h2]
  where both handlers end in [raise HTTPException] or [return]. *)
Fixpoint try_except {A} (body : prog (except A))
  (on_api : Z → string → A) (on_exception : string → A) : prog A :=
match body with
| Ret (Value a) => Ret a
| Ret (Raised (ApiException status text)) => Ret (on_api status text)
| Ret (Raised (Exception text)) => Ret (on_exception text)
| Call c k => Call c (λ r, try_except (k r) on_api on_exception)
end.

(** [try: body  except Exception as e: h] *)
Definition try_except_all {A} (body : prog (except A)) (h : string → A) : prog A :=
try_except body (λ _ text, h text) h.

Section Run.
Context {world : Type}.
Variable remote : world → call → except json * world.

(** Run against a remote: the result, the calls made with their replies
    (oldest first) and the remote's final state. *)
Fixpoint run {A} (p : prog A) (w : world) : A * list (call * except json) * world :=
  match p with
  | Ret a => (a, [], w)
  | Call c k =>
      let '(r, w1) := remote w c in
      let '(a, tr, w2) := run (k r) w1 in
      (a, (c, r) :: tr, w2)
  end.

Definition result_of {A} (p : prog A) (w : world) : A := (run p w).1.1.
Definition calls_of {A} (p : prog A) (w : world) : list (call * except json) := (run p w).1.2.
Definition replies_of {A} (p : prog A) (w : world) : list (except json) := (calls_of p w).*2.
End Run.

(** Remotes to run the handlers against: one that answers every call with
    "not found", and one that answers every call with [reply]. *)
Definition absent_remote (w : unit) (c : call) : except json * unit :=
(Raised (ApiException 404 "(404) Reason: Not Found"), w).

Definition constant_remote (reply : except json) (w : unit) (c : call)
  : except json * unit :=
(reply, w).

(** ** Module constants and request bodies *)

Definition NAMESPACE : string := "kube-system".
Definition GROUP : string := "kubeovn.io".
Definition VERSION : string := "v1".

Definition RESOURCES : list string :=
["vpcs"; "subnets"; "ippools"; "ips"; "iptables-dnat-rules"; "iptables-eips";
 "iptables-fip-rules"; "iptables-snat-rules"; "ovn-dnat-rules"; "ovn-eips";
 "ovn-fips"; "ovn-snat-rules"; "provider-networks"; "qos-policies";
 "security-groups"; "switch-lb-rules"; "vips"; "vlans"; "vpc-dnses";
 "vpc-nat-gateways"].

Definition NAMESPACED_RESOURCES : list string := [].

Record PatchBody : Type := { patch_spec : gmap string json }.

Record CreateBody : Type := {
name : string;
namespace : option string;
spec : gmap string json
}.

(** What a handler hands back: a returned document (status 200) or a
  raised [HTTPException]. *)
Inductive response : Type :=
| Return (body : json)
| HTTPException (status_code : Z) (detail : string).

Definition status_of (r : response) : Z :=
match r with
| Return _ => 200
| HTTPException status_code _ => status_code
end.

Definition is_client_error (r : response) : bool :=
(400 <=? status_of r)%Z && (status_of r <? 500)%Z.

(** ** The handlers *)

Definition error_payload (text : string) : json := JDict {["error" := JStr text]}.
Definition message_payload (text : string) : json := JDict {["message" := JStr text]}.

(** [@app.get("/api/{resource}")] *)
Definition get_resources (resource : string) : prog response :=
if decide (resource ∉ RESOURCES) then
  Ret (Return (error_payload "Invalid resource type"))
else
  try_except_all
    (result <~ api (list_cluster_custom_object GROUP VERSION resource) ;;
     items <~ lift (Py.getitem result "items") ;;
     ret (Return items))
    (λ text, Return (error_payload text)).

Definition kind_mapping : gmap string string :=
list_to_map
  [("vpcs", "Vpc");
   ("subnets", "Subnet");
   ("ippools", "IpPool");
   ("ips", "IP");
   ("iptables-dnat-rules", "IptablesDnatRule");
   ("iptables-eips", "IptablesEIP");
   ("iptables-fip-rules", "IptablesFIPRule");
   ("iptables-snat-rules", "IptablesSnatRule");
   ("ovn-dnat-rules", "OvnDnatRule");
   ("ovn-eips", "OvnEip");
   ("ovn-fips", "OvnFip");
   ("ovn-snat-rules", "OvnSnatRule");
   ("provider-networks", "ProviderNetwork");
   ("qos-policies", "QoSPolicy");
   ("security-groups", "SecurityGroup");
   ("switch-lb-rules", "SwitchLBRule");
   ("vips", "Vip");
   ("vlans", "Vlan");
   ("vpc-dnses", "VpcDns");
   ("vpc-nat-gateways", "VpcNatGateway")].

(** [kind_mapping.get(resource, resource.capitalize())] *)
Definition resolve_kind (resource : string) : string :=
default (PyStr.capitalize resource) (kind_mapping !! resource).

(** The same expression with the interpreter's [str.capitalize] taken as
    [capitalize], for text of any alphabet. *)
Definition resolve_kind_with (capitalize : string → string) (resource : string) : string :=
default (capitalize resource) (kind_mapping !! resource).

(** [{"name": create_body.name}], with ["namespace"] stored when
    [create_body.namespace] is truthy. *)
Definition metadata_of (create_body : CreateBody) : gmap string json :=
let metadata : gmap string json := {["name" := JStr (name create_body)]} in
match namespace create_body with
| Some ns => if PyStr.truthy ns then <["namespace" := JStr ns]> metadata else metadata
| None => metadata
end.

Definition manifest_of (resource : string) (create_body : CreateBody) : json :=
JDict (list_to_map
  [("apiVersion", JStr (GROUP +:+ "/" +:+ VERSION));
   ("kind", JStr (resolve_kind resource));
   ("metadata", JDict (metadata_of create_body));
   ("spec", JDict (spec create_body))]).

(** [@app.post("/api/{resource}")] *)
Definition create_resource (resource : string) (create_body : CreateBody) : prog response :=
if decide (resource ∉ RESOURCES) then
  Ret (HTTPException 400 "Invalid resource type")
else
  let kind := resolve_kind resource in
  let manifest := manifest_of resource create_body in
  try_except
    (response <~ api (create_cluster_custom_object GROUP VERSION resource manifest) ;;
     ret (Return response))
    (λ status text,
       if (status =? 409)%Z
       then HTTPException 409 (kind +:+ " '" +:+ name create_body +:+ "' already exists")
       else HTTPException status text)
    (λ text, HTTPException 500 text).

(** In the patch handlers [current["spec"].update(patch_body.spec)] mutates
    the spec of [current] in place; [current] is then the object with the
    merged spec under ["spec"]. *)

(** [@app.patch("/api/subnets/{subnet_name}")] *)
Definition patch_subnet (subnet_name : string) (patch_body : PatchBody) : prog response :=
try_except
  (current <~ api (get_cluster_custom_object GROUP VERSION "subnets" subnet_name) ;;
   current_spec <~ lift (Py.getitem current "spec") ;;
   merged <~ lift (Py.update current_spec (patch_spec patch_body)) ;;
   let current := Py.setitem current "spec" merged in
   response <~ api (patch_cluster_custom_object GROUP VERSION "subnets" subnet_name current) ;;
   ret (Return response))
  (λ status text,
     if (status =? 404)%Z
     then HTTPException 404 ("Subnet" +:+ " '" +:+ subnet_name +:+ "' not found")
     else HTTPException status text)
  (λ text, HTTPException 500 text).

(** [@app.patch("/api/vpc-nat-gateways/{gateway_name}")] *)
Definition patch_vpc_nat_gateway (gateway_name : string) (patch_body : PatchBody) : prog response :=
try_except
  (current <~ api (get_cluster_custom_object GROUP VERSION "vpc-nat-gateways" gateway_name) ;;
   current_spec <~ lift (Py.getitem current "spec") ;;
   merged <~ lift (Py.update current_spec (patch_spec patch_body)) ;;
   let current := Py.setitem current "spec" merged in
   response <~ api (patch_cluster_custom_object GROUP VERSION "vpc-nat-gateways" gateway_name current) ;;
   ret (Return response))
  (λ status text,
     if (status =? 404)%Z
     then HTTPException 404 ("VPC NAT Gateway" +:+ " '" +:+ gateway_name +:+ "' not found")
     else HTTPException status text)
  (λ text, HTTPException 500 text).

(** [@app.delete("/api/subnets/{subnet_name}")] *)
Definition delete_subnet (subnet_name : string) : prog response :=
try_except
  (_ <~ api (get_cluster_custom_object GROUP VERSION "subnets" subnet_name) ;;
   _ <~ api (delete_cluster_custom_object GROUP VERSION "subnets" subnet_name) ;;
   ret (Return (message_payload ("Subnet" +:+ " '" +:+ subnet_name +:+ "' deleted successfully"))))
  (λ status text,
     if (status =? 404)%Z
     then HTTPException 404 ("Subnet" +:+ " '" +:+ subnet_name +:+ "' not found")
     else HTTPException status text)
  (λ text, HTTPException 500 text).

(** [@app.delete("/api/vpc-nat-gateways/{gateway_name}")] *)
Definition delete_vpc_nat_gateway (gateway_name : string) : prog response :=
try_except
  (_ <~ api (get_cluster_custom_object GROUP VERSION "vpc-nat-gateways" gateway_name) ;;
   _ <~ api (delete_cluster_custom_object GROUP VERSION "vpc-nat-gateways" gateway_name) ;;
   ret (Return (message_payload ("VPC NAT Gateway" +:+ " '" +:+ gateway_name +:+ "' deleted successfully"))))
  (λ status text,
     if (status =? 404)%Z
     then HTTPException 404 ("VPC NAT Gateway" +:+ " '" +:+ gateway_name +:+ "' not found")
     else HTTPException status text)
  (λ text, HTTPException 500 text).

(** [@app.patch("/api/{resource}/{resource_name}")] *)
Definition patch_resource (resource resource_name : string) (patch_body : PatchBody)
  : prog response :=
if decide (resource ∉ RESOURCES) then
  Ret (HTTPException 400 "Invalid resource type")
else
  try_except
    (current <~ api (get_cluster_custom_object GROUP VERSION resource resource_name) ;;
     current_spec <~ lift (Py.getitem current "spec") ;;
     merged <~ lift (Py.update current_spec (patch_spec patch_body)) ;;
     let current := Py.setitem current "spec" merged in
     response <~ api (patch_cluster_custom_object GROUP VERSION resource resource_name current) ;;
     ret (Return response))
    (λ status text,
       if (status =? 404)%Z
       then HTTPException 404 (PyStr.capitalize resource +:+ " '" +:+ resource_name +:+ "' not found")
       else HTTPException status text)
    (λ text, HTTPException 500 text).

(** [@app.delete("/api/{resource}/{resource_name}")] *)
Definition delete_resource (resource resource_name : string) : prog response :=
if decide (resource ∉ RESOURCES) then
  Ret (HTTPException 400 "Invalid resource type")
else
  try_except
    (_ <~ api (get_cluster_custom_object GROUP VERSION resource resource_name) ;;
     _ <~ api (delete_cluster_custom_object GROUP VERSION resource resource_name) ;;
     ret (Return (message_payload (PyStr.capitalize resource +:+ " '" +:+ resource_name +:+ "' deleted successfully"))))
    (λ status text,
       if (status =? 404)%Z
       then HTTPException 404 (PyStr.capitalize resource +:+ " '" +:+ resource_name +:+ "' not found")
       else HTTPException status text)
    (λ text, HTTPException 500 text).

(** The patch and the delete endpoints that take objects of a plural, each
    with the kind label its messages carry: the generic endpoint for every
    plural, and the endpoint of its own for "subnets" and for
    "vpc-nat-gateways". *)
Definition patch_endpoints (plural object_name : string) (patch_body : PatchBody)
  : list (string * prog response) :=
((PyStr.capitalize plural, patch_resource plural object_name patch_body)
 :: (if decide (plural = "subnets")
     then [("Subnet", patch_subnet object_name patch_body)] else [])
 ++ (if decide (plural = "vpc-nat-gateways")
     then [("VPC NAT Gateway", patch_vpc_nat_gateway object_name patch_body)] else []))%list.

Definition delete_endpoints (plural object_name : string)
  : list (string * prog response) :=
((PyStr.capitalize plural, delete_resource plural object_name)
 :: (if decide (plural = "subnets")
     then [("Subnet", delete_subnet object_name)] else [])
 ++ (if decide (plural = "vpc-nat-gateways")
     then [("VPC NAT Gateway", delete_vpc_nat_gateway object_name)] else []))%list.

(** ** Routing *)

(** A request path is the list of its segments: [/api/subnets/s1] is
    [["api"; "subnets"; "s1"]].  A route is tried in the order the source
    registers it, and the first route whose method and path both match
    serves the request.

    [routes] holds the eight HTTP routes this file registers, all of them
    under [/api].  The routes the framework adds by itself ([/docs],
    [/redoc], [/openapi.json]) and the WebSocket route [/ws] lie outside
    [/api] and are not part of it; the WebSocket handler is modelled in
    [Relay]. *)

Inductive method : Type := GET | POST | PATCH | DELETE.

Inductive segment : Type :=
| Lit (s : string)
| Param.

Inductive endpoint : Type :=
| E_get_resources
| E_create_resource
| E_patch_subnet
| E_patch_vpc_nat_gateway
| E_delete_subnet
| E_delete_vpc_nat_gateway
| E_patch_resource
| E_delete_resource.

Global Instance method_eq_dec : EqDecision method.
Proof. solve_decision. Defined.

Fixpoint has_slash (s : string) : bool :=
match s with
| EmptyString => false
| String c rest => if Ascii.eqb c "/"%char then true else has_slash rest
end.

(** A path parameter [{x}] takes one segment: one or more characters,
    none of them a slash. *)
Definition param_ok (s : string) : bool :=
PyStr.truthy s && negb (has_slash s).

(** The parameters a pattern captures from a path, when it matches. *)
Fixpoint match_path (pattern : list segment) (path : list string) : option (list string) :=
match pattern, path with
| [], [] => Some []
| Lit s :: pattern', x :: path' =>
    if decide (s = x) then match_path pattern' path' else None
| Param :: pattern', x :: path' =>
    if param_ok x then cons x <$> match_path pattern' path' else None
| _, _ => None
end.

Definition routes : list (method * list segment * endpoint) :=
[ (GET, [Lit "api"; Param], E_get_resources);
  (POST, [Lit "api"; Param], E_create_resource);
  (PATCH, [Lit "api"; Lit "subnets"; Param], E_patch_subnet);
  (PATCH, [Lit "api"; Lit "vpc-nat-gateways"; Param], E_patch_vpc_nat_gateway);
  (DELETE, [Lit "api"; Lit "subnets"; Param], E_delete_subnet);
  (DELETE, [Lit "api"; Lit "vpc-nat-gateways"; Param], E_delete_vpc_nat_gateway);
  (PATCH, [Lit "api"; Param; Param], E_patch_resource);
  (DELETE, [Lit "api"; Param; Param], E_delete_resource) ].

Fixpoint first_match (table : list (method * list segment * endpoint))
    (m : method) (path : list string) : option (endpoint * list string) :=
match table with
| [] => None
| (m', pattern, e) :: table' =>
    if decide (m' = m) then
      match match_path pattern path with
      | Some params => Some (e, params)
      | None => first_match table' m path
      end
    else first_match table' m path
end.

Definition route (m : method) (path : list string) : option (endpoint * list string) :=
first_match routes m path.

(** A request whose body already passed validation into its model. *)
Inductive request : Type :=
| Get (path : list string)
| Post (path : list string) (create_body : CreateBody)
| Patch (path : list string) (patch_body : PatchBody)
| Delete (path : list string).

Definition method_of (req : request) : method :=
match req with
| Get _ => GET
| Post _ _ => POST
| Patch _ _ => PATCH
| Delete _ => DELETE
end.

Definition path_of (req : request) : list string :=
match req with
| Get path | Post path _ | Patch path _ | Delete path => path
end.

Definition invoke (e : endpoint) (params : list string) (req : request)
  : option (prog response) :=
match e, params, req with
| E_get_resources, [resource], Get _ => Some (get_resources resource)
| E_create_resource, [resource], Post _ create_body =>
    Some (create_resource resource create_body)
| E_patch_subnet, [subnet_name], Patch _ patch_body =>
    Some (patch_subnet subnet_name patch_body)
| E_patch_vpc_nat_gateway, [gateway_name], Patch _ patch_body =>
    Some (patch_vpc_nat_gateway gateway_name patch_body)
| E_delete_subnet, [subnet_name], Delete _ => Some (delete_subnet subnet_name)
| E_delete_vpc_nat_gateway, [gateway_name], Delete _ =>
    Some (delete_vpc_nat_gateway gateway_name)
| E_patch_resource, [resource; resource_name], Patch _ patch_body =>
    Some (patch_resource resource resource_name patch_body)
| E_delete_resource, [resource; resource_name], Delete _ =>
    Some (delete_resource resource resource_name)
| _, _, _ => None
end.

(** The application on the routes of this file: [None] when none of them
    serves the request. *)
Definition app (req : request) : option (prog response) :=
match route (method_of req) (path_of req) with
| Some (e, params) => invoke e params req
| None => None
end.

(** How the run of a kind's own handler compares with the run of the
    generic handler: the same calls with the same replies, the same final
    remote, the same status, and the same response except where the
    response carries the kind label (the 404 detail and the delete
    confirmation). *)
Definition same_up_to_label {world : Type}
    (remote : world → call → except json * world) (w : world)
    (specific generic : prog response)
    (label_specific label_generic object_name : string) : Prop :=
calls_of remote specific w = calls_of remote generic w ∧
(run remote specific w).2 = (run remote generic w).2 ∧
status_of (result_of remote specific w) = status_of (result_of remote generic w) ∧
(result_of remote specific w = result_of remote generic w
 ∨ (result_of remote specific w
      = HTTPException 404 (label_specific +:+ " '" +:+ object_name +:+ "' not found") ∧
    result_of remote generic w
      = HTTPException 404 (label_generic +:+ " '" +:+ object_name +:+ "' not found"))
 ∨ (result_of remote specific w
      = Return (message_payload
                  (label_specific +:+ " '" +:+ object_name +:+ "' deleted successfully")) ∧
    result_of remote generic w
      = Return (message_payload
                  (label_generic +:+ " '" +:+ object_name +:+ "' deleted successfully")))).

(** ** The watch relay *)

Module Relay.

(** What the handler does to the socket, the watch and the console. *)
Inductive action : Type :=
| ws_accept
| ws_send_json (message : json)
| watch_stream (group version plural : string)
| watch_stop
| print (text : string).

(** What one turn of the inner loop meets: the stream yields an event, and
    [send_json] then returns ([None]) or raises; the stream ends; the
    stream raises. *)
Inductive answer : Type :=
| Yields (event : json) (send : option string)
| Exhausted
| StreamRaises (text : string).

Inductive state : Type :=
| Idle
| Streaming (resource : string) (remaining : list string)
| Closed.

(** [{"resource": resource, "type": event["type"], "object": event["object"]}] *)
Definition message_of (resource : string) (event : json) : except json :=
match Py.getitem event "type" with
| Raised e => Raised e
| Value ty =>
    match Py.getitem event "object" with
    | Raised e => Raised e
    | Value object =>
        Value (JDict (list_to_map
          [("resource", JStr resource); ("type", ty); ("object", object)]))
    end
end.

Definition text_of (e : exn) : string :=
match e with
| ApiException _ text => text
| Exception text => text
end.

(** [except Exception as e: print(...)] and then [finally: w.stop()]. *)
Definition on_error (text : string) : list action :=
[print ("WebSocket error: " +:+ text); watch_stop].

(** The outer [for] moves to the next kind, or falls out of the [try]. *)
Definition next_kind (remaining : list string) : state * list action :=
match remaining with
| resource :: remaining' =>
    (Streaming resource remaining', [watch_stream GROUP VERSION resource])
| [] => (Closed, [watch_stop])
end.

Definition step (st : state) (a : answer) : state * list action :=
match st with
| Idle => (Idle, [])
| Closed => (Closed, [])
| Streaming resource remaining =>
    match a with
    | Yields event send =>
        match message_of resource event with
        | Raised e => (Closed, on_error (text_of e))
        | Value message =>
            match send with
            | None => (Streaming resource remaining, [ws_send_json message])
            | Some text => (Closed, ws_send_json message :: on_error text)
            end
        end
    | Exhausted => next_kind remaining
    | StreamRaises text => (Closed, on_error text)
    end
end.

Fixpoint steps (st : state) (answers : list answer) : state * list action :=
match answers with
| [] => (st, [])
| a :: answers' =>
    let '(st1, out1) := step st a in
    let '(st2, out2) := steps st1 answers' in
    (st2, (out1 ++ out2)%list)
end.

(** [@app.websocket("/ws")]: [accepted] is [None] when [accept] returns
    and the text of its exception otherwise (raised outside the [try],
    before the watch exists). *)
Definition websocket_endpoint (accepted : option string) (answers : list answer)
  : state * list action :=
match accepted with
| Some _ => (Closed, [ws_accept])
| None =>
    let '(st1, out1) := next_kind RESOURCES in
    let '(st2, out2) := steps st1 answers in
    (st2, (ws_accept :: out1 ++ out2)%list)
end.

Definition is_stream (a : action) : option string :=
match a with watch_stream _ _ plural => Some plural | _ => None end.

Definition is_send (a : action) : option json :=
match a with ws_send_json message => Some message | _ => None end.

(** The answers on which the loop goes on. *)
Definition goes_on (resource : string) (a : answer) : bool :=
match a with
| Yields event None =>
    match message_of resource event with Value _ => true | Raised _ => false end
| Yields _ (Some _) => false
| Exhausted => true
| StreamRaises _ => false
end.

(** The text printed when the loop fails on an answer. *)
Definition failure_of (resource : string) (a : answer) : option string :=
match a with
| Yields event send =>
    match message_of resource event with
    | Raised e => Some (text_of e)
    | Value _ => send
    end
| Exhausted => None
| StreamRaises text => Some text
end.

(** The run that a theorem describes: the stream of each kind yields the
    events of one segment, every send succeeds, and each stream but the
    last ends. *)
Definition yielded (event : json) : answer := Yields event None.

Fixpoint answers_of (segments : list (list json)) : list answer :=
match segments with
| [] => []
| events :: segments' =>
    (map yielded events ++
     match segments' with
     | [] => []
     | _ => Exhausted :: answers_of segments'
     end)%list
end.

(** An event that has a type and an object. *)
Definition well_formed (event : json) : bool :=
match event with
| JDict d => bool_decide (is_Some (d !! "type")) && bool_decide (is_Some (d !! "object"))
| _ => false
end.

(** The message [{resource, type, object}] sent for an event of a kind;
    nothing is sent for an event without a type or an object. *)
Definition forward (resource : string) (event : json) : list action :=
match event with
| JDict d =>
    match d !! "type", d !! "object" with
    | Some ty, Some object =>
        [ws_send_json
           (JDict {["resource" := JStr resource; "type" := ty; "object" := object]})]
    | _, _ => []
    end
| _ => []
end.

(** One subscription per kind, in order, each followed by the messages of
    its events. *)
Fixpoint streamed (kinds : list string) (segments : list (list json)) : list action :=
match kinds, segments with
| resource :: kinds', events :: segments' =>
    (watch_stream GROUP VERSION resource
     :: flat_map (forward resource) events ++ streamed kinds' segments')%list
| _, _ => []
end.

(** The send that was begun when the loop failed. *)
Definition attempted (resource : string) (a : answer) : list action :=
match a with
| Yields event _ => forward resource event
| _ => []
end.

End Relay.

(** ** Reading a run *)

(** The method a remote call invokes, and the group, version, plural and
    object name it is invoked with. *)
Inductive verb : Type := v_list | v_get | v_create | v_patch | v_delete.

Definition verb_of (c : call) : verb :=
match c with
| list_cluster_custom_object _ _ _ => v_list
| get_cluster_custom_object _ _ _ _ => v_get
| create_cluster_custom_object _ _ _ _ => v_create
| patch_cluster_custom_object _ _ _ _ _ => v_patch
| delete_cluster_custom_object _ _ _ _ => v_delete
end.

Definition call_group (c : call) : string :=
match c with
| list_cluster_custom_object group _ _
| get_cluster_custom_object group _ _ _
| create_cluster_custom_object group _ _ _
| patch_cluster_custom_object group _ _ _ _
| delete_cluster_custom_object group _ _ _ => group
end.

Definition call_version (c : call) : string :=
match c with
| list_cluster_custom_object _ version _
| get_cluster_custom_object _ version _ _
| create_cluster_custom_object _ version _ _
| patch_cluster_custom_object _ version _ _ _
| delete_cluster_custom_object _ version _ _ => version
end.

Definition call_plural (c : call) : string :=
match c with
| list_cluster_custom_object _ _ plural
| get_cluster_custom_object _ _ plural _
| create_cluster_custom_object _ _ plural _
| patch_cluster_custom_object _ _ plural _ _
| delete_cluster_custom_object _ _ plural _ => plural
end.

Definition call_name (c : call) : option string :=
match c with
| list_cluster_custom_object _ _ _ => None
| create_cluster_custom_object _ _ _ _ => None
| get_cluster_custom_object _ _ _ object_name
| patch_cluster_custom_object _ _ _ object_name _
| delete_cluster_custom_object _ _ _ object_name => Some object_name
end.

(** The sequences of remote methods a request of each HTTP method may
    give rise to. *)
Definition verbs_allowed (m : method) : list (list verb) :=
match m with
| GET => [[]; [v_list]]
| POST => [[]; [v_create]]
| PATCH => [[]; [v_get]; [v_get; v_patch]]
| DELETE => [[]; [v_get]; [v_get; v_delete]]
end.

(** The status an endpoint that reports failures by status answers with
    when the remote raised [e]. *)
Definition status_for (e : exn) : Z :=
match e with
| ApiException status _ => status
| Exception _ => 500
end.

(** Every endpoint that writes: create, and the patch and delete endpoints
    of a plural. *)
Definition mutating_endpoints (plural object_name : string)
    (create_body : CreateBody) (patch_body : PatchBody) : list (prog response) :=
(create_resource plural create_body
 :: (patch_endpoints plural object_name patch_body).*2
 ++ (delete_endpoints plural object_name).*2)%list.

(** The requests the application serves, each with the handler that
    serves it. *)
Inductive serves : request → prog response → Prop :=
| serves_get_resources (resource : string) :
    param_ok resource = true →
    serves (Get ["api"; resource]) (get_resources resource)
| serves_create_resource (resource : string) (create_body : CreateBody) :
    param_ok resource = true →
    serves (Post ["api"; resource] create_body) (create_resource resource create_body)
| serves_patch_subnet (subnet_name : string) (patch_body : PatchBody) :
    param_ok subnet_name = true →
    serves (Patch ["api"; "subnets"; subnet_name] patch_body)
           (patch_subnet subnet_name patch_body)
| serves_patch_vpc_nat_gateway (gateway_name : string) (patch_body : PatchBody) :
    param_ok gateway_name = true →
    serves (Patch ["api"; "vpc-nat-gateways"; gateway_name] patch_body)
           (patch_vpc_nat_gateway gateway_name patch_body)
| serves_delete_subnet (subnet_name : string) :
    param_ok subnet_name = true →
    serves (Delete ["api"; "subnets"; subnet_name]) (delete_subnet subnet_name)
| serves_delete_vpc_nat_gateway (gateway_name : string) :
    param_ok gateway_name = true →
    serves (Delete ["api"; "vpc-nat-gateways"; gateway_name])
           (delete_vpc_nat_gateway gateway_name)
| serves_patch_resource (resource resource_name : string) (patch_body : PatchBody) :
    param_ok resource = true → param_ok resource_name = true →
    resource ≠ "subnets" → resource ≠ "vpc-nat-gateways" →
    serves (Patch ["api"; resource; resource_name] patch_body)
           (patch_resource resource resource_name patch_body)
| serves_delete_resource (resource resource_name : string) :
    param_ok resource = true → param_ok resource_name = true →
    resource ≠ "subnets" → resource ≠ "vpc-nat-gateways" →
    serves (Delete ["api"; resource; resource_name])
           (delete_resource resource resource_name).

(** * Properties *)

(** ** Tactics and facts shared by the proofs *)

(** A decidable fact about literals, by evaluation. *)
Ltac by_evaluation := apply (bool_decide_unpack _); vm_compute; exact I.

Lemma registered_iff_mapped (resource : string) :
  resource ∈ RESOURCES ↔ is_Some (kind_mapping !! resource).
Proof.
  split.
  - revert resource. apply Forall_forall.
    repeat (apply Forall_cons; split; [by eexists; vm_compute|]).
    apply Forall_nil_2.
  - intros [kind Hkind]. apply elem_of_list_to_map_2 in Hkind.
    apply (list_elem_of_fmap_2 fst) in Hkind. exact Hkind.
Qed.

Lemma unregistered_iff_unmapped (resource : string) :
  resource ∉ RESOURCES ↔ kind_mapping !! resource = None.
Proof. rewrite registered_iff_mapped, eq_None_not_Some. done. Qed.

(** ** The registry and kind resolution *)

(** C10: the registry has twenty names, and every plural is either
    registered, with its kind taken from the explicit table, or
    unregistered, absent from the table and rejected by create with the
    invalid-resource error, so that the capitalising fallback serves
    rejected requests only. *)
Theorem fallback_unreachable_after_registry_check
    (resource : string) (create_body : CreateBody) :
  List.length RESOURCES = 20 ∧
  ((∃ kind, (resource ∈ RESOURCES ∧ kind_mapping !! resource = Some kind ∧
             resolve_kind resource = kind))
   ∨ ((resource ∉ RESOURCES) ∧ kind_mapping !! resource = None ∧
      resolve_kind resource = PyStr.capitalize resource ∧
      create_resource resource create_body
        = Ret (HTTPException 400 "Invalid resource type"))).
Proof.
  split; [reflexivity|].
  destruct (decide (resource ∈ RESOURCES)) as [Hin | Hout].
  - left. destruct (proj1 (registered_iff_mapped resource) Hin) as [kind Hkind].
    exists kind. unfold resolve_kind. rewrite Hkind. done.
  - right. pose proof (proj1 (unregistered_iff_unmapped resource) Hout) as Hnone.
    unfold resolve_kind, create_resource. rewrite Hnone.
    destruct (decide (resource ∉ RESOURCES)); done.
Qed.

Lemma resolve_kind_with_registered (capitalize : string → string) (resource : string) :
  resource ∈ RESOURCES → resolve_kind_with capitalize resource = resolve_kind resource.
Proof.
  intros Hreg. destruct (proj1 (registered_iff_mapped resource) Hreg) as [kind Hkind].
  unfold resolve_kind_with, resolve_kind. by rewrite Hkind.
Qed.

(** C4: take the interpreter's [str.capitalize] as [capitalize]; all that
    is assumed of it is what it does to ASCII text.  Kind resolution maps
    "vpcs" to "Vpc" and "iptables-dnat-rules" to "IptablesDnatRule", and
    every plural absent from the table, of any alphabet, to its
    [capitalize].  On a registered plural the result does not depend on
    [capitalize]; on an absent ASCII plural it is the plural with its
    first character in upper case and every later character in lower
    case. *)
Theorem kind_resolution (capitalize : string → string) (resource : string)
    (Hbuiltin : ∀ s, PyStr.is_ascii s = true → capitalize s = PyStr.capitalize s)
    (Habsent : kind_mapping !! resource = None) :
  resolve_kind_with capitalize "vpcs" = "Vpc" ∧
  resolve_kind_with capitalize "iptables-dnat-rules" = "IptablesDnatRule" ∧
  resolve_kind_with capitalize resource = capitalize resource ∧
  (∀ registered, registered ∈ RESOURCES →
     resolve_kind_with capitalize registered = resolve_kind registered) ∧
  (PyStr.is_ascii resource = true →
   resolve_kind resource = resolve_kind_with capitalize resource ∧
   resolve_kind resource =
     match resource with
     | EmptyString => EmptyString
     | String c rest => String (PyStr.upper_char c) (PyStr.lower rest)
     end).
Proof.
  split; [reflexivity|]. split; [reflexivity|].
  split; [unfold resolve_kind_with; by rewrite Habsent|].
  split; [intros registered; apply resolve_kind_with_registered|].
  intros Hascii. unfold resolve_kind, resolve_kind_with. rewrite Habsent. cbn [default].
  split; [by rewrite Hbuiltin | by destruct resource].
Qed.

Lemma kind_resolution_witness :
  (∀ s, PyStr.is_ascii s = true →
        (if PyStr.is_ascii s then PyStr.capitalize s else s) = PyStr.capitalize s) ∧
  kind_mapping !! "widgets" = None ∧
  resolve_kind_with (λ s, if PyStr.is_ascii s then PyStr.capitalize s else s) "widgets"
    = "Widgets" ∧
  resolve_kind "widgets" = "Widgets".
Proof.
  assert (Hbuiltin : ∀ s, PyStr.is_ascii s = true →
            (if PyStr.is_ascii s then PyStr.capitalize s else s) = PyStr.capitalize s).
  { intros s Hs. rewrite Hs. reflexivity. }
  split; [exact Hbuiltin|]. split; [reflexivity|].
  destruct (kind_resolution (λ s, if PyStr.is_ascii s then PyStr.capitalize s else s)
              "widgets" Hbuiltin eq_refl)
    as (_ & _ & Hfallback & _ & Hascii).
  split; [exact Hfallback | exact (proj2 (Hascii eq_refl))].
Defined.

(** The later characters are lower-cased too. *)
Example fallback_lowercases_the_rest :
  kind_mapping !! "aB" = None ∧ resolve_kind "aB" = "Ab".
Proof. split; reflexivity. Qed.

(** ** Requests for a kind outside the registry *)

(** C1: for a plural outside the registry, each of the four generic
    endpoints ends with its invalid-resource result (the error document
    from GET, the 400 [HTTPException] from POST, PATCH and DELETE), and
    against every remote no call is made and the remote is left as it
    was. *)
Theorem unknown_kind_rejected_before_any_remote_call {world : Type}
    (remote : world → call → except json * world) (w : world)
    (resource resource_name : string)
    (create_body : CreateBody) (patch_body : PatchBody)
    (Hunknown : resource ∉ RESOURCES) :
  run remote (get_resources resource) w
    = (Return (JDict {["error" := JStr "Invalid resource type"]}), [], w) ∧
  run remote (create_resource resource create_body) w
    = (HTTPException 400 "Invalid resource type", [], w) ∧
  run remote (patch_resource resource resource_name patch_body) w
    = (HTTPException 400 "Invalid resource type", [], w) ∧
  run remote (delete_resource resource resource_name) w
    = (HTTPException 400 "Invalid resource type", [], w).
Proof.
  unfold get_resources, create_resource, patch_resource, delete_resource.
  destruct (decide (resource ∉ RESOURCES)); [|done].
  repeat split.
Qed.

Lemma unknown_kind_rejected_before_any_remote_call_witness :
  ("widgets" ∉ RESOURCES) ∧
  run absent_remote (get_resources "widgets") tt
    = (Return (JDict {["error" := JStr "Invalid resource type"]}), [], tt) ∧
  run absent_remote
      (create_resource "widgets" {| name := "w1"; namespace := None; spec := ∅ |}) tt
    = (HTTPException 400 "Invalid resource type", [], tt) ∧
  run absent_remote (patch_resource "widgets" "w1" {| patch_spec := ∅ |}) tt
    = (HTTPException 400 "Invalid resource type", [], tt) ∧
  run absent_remote (delete_resource "widgets" "w1") tt
    = (HTTPException 400 "Invalid resource type", [], tt).
Proof.
  split; [by_evaluation|].
  apply (unknown_kind_rejected_before_any_remote_call absent_remote tt "widgets" "w1").
  by_evaluation.
Defined.

(** C8 as amended: for a plural outside the registry no endpoint performs
    remote I/O; POST, PATCH and DELETE answer with the client error 400
    "Invalid resource type", and GET returns normally (status 200) the
    document [{"error": "Invalid resource type"}]. *)
Theorem unknown_kind_validation {world : Type}
    (remote : world → call → except json * world) (w : world)
    (resource resource_name : string)
    (create_body : CreateBody) (patch_body : PatchBody)
    (Hunknown : resource ∉ RESOURCES) :
  (calls_of remote (get_resources resource) w = [] ∧
   result_of remote (get_resources resource) w
     = Return (JDict {["error" := JStr "Invalid resource type"]}) ∧
   status_of (result_of remote (get_resources resource) w) = 200%Z) ∧
  (∀ p, p ∈ [create_resource resource create_body;
             patch_resource resource resource_name patch_body;
             delete_resource resource resource_name] →
        calls_of remote p w = [] ∧
        result_of remote p w = HTTPException 400 "Invalid resource type" ∧
        is_client_error (result_of remote p w) = true).
Proof.
  unfold get_resources, create_resource, patch_resource, delete_resource.
  destruct (decide (resource ∉ RESOURCES)); [|done].
  split; [done|].
  intros p Hp. repeat (apply elem_of_cons in Hp as [-> | Hp]; [done|]).
  by apply elem_of_nil in Hp.
Qed.

Lemma unknown_kind_validation_witness :
  ("widgets" ∉ RESOURCES) ∧
  (calls_of absent_remote (get_resources "widgets") tt = [] ∧
   result_of absent_remote (get_resources "widgets") tt
     = Return (JDict {["error" := JStr "Invalid resource type"]}) ∧
   status_of (result_of absent_remote (get_resources "widgets") tt) = 200%Z) ∧
  (∀ p, p ∈ [create_resource "widgets" {| name := "w1"; namespace := None; spec := ∅ |};
             patch_resource "widgets" "w1" {| patch_spec := ∅ |};
             delete_resource "widgets" "w1"] →
        calls_of absent_remote p tt = [] ∧
        result_of absent_remote p tt = HTTPException 400 "Invalid resource type" ∧
        is_client_error (result_of absent_remote p tt) = true).
Proof.
  split; [by_evaluation|].
  apply (unknown_kind_validation absent_remote tt "widgets" "w1").
  by_evaluation.
Defined.

(** C8 as stated fails on GET: "widgets" is outside the registry and the
    list endpoint returns normally, so its status is 200 and no client
    error. *)
Lemma get_unknown_kind_is_no_client_error :
  ("widgets" ∉ RESOURCES) ∧
  result_of absent_remote (get_resources "widgets") tt
    = Return (JDict {["error" := JStr "Invalid resource type"]}) ∧
  status_of (result_of absent_remote (get_resources "widgets") tt) = 200%Z ∧
  is_client_error (result_of absent_remote (get_resources "widgets") tt) = false.
Proof.
  split; [by_evaluation|].
  repeat split.
Qed.

(** ** Create *)

Lemma registered_accepted (resource : string) :
  resource ∈ RESOURCES →
  ∃ kind, kind_mapping !! resource = Some kind ∧ resolve_kind resource = kind.
Proof.
  intros Hreg. destruct (proj1 (registered_iff_mapped resource) Hreg) as [kind Hkind].
  exists kind. unfold resolve_kind. by rewrite Hkind.
Qed.

(** C3: for a registered plural, create makes one remote call, the create
    call for that plural, and the manifest it submits is exactly
    apiVersion "kubeovn.io/v1", the kind from the table, the metadata and
    the given spec.  The metadata is the name alone when no namespace is
    given (or an empty one), and the name with the namespace otherwise;
    a namespace in the metadata is always the one of the request. *)
Theorem create_submits_manifest {world : Type}
    (remote : world → call → except json * world) (w : world)
    (resource : string) (create_body : CreateBody)
    (Hregistered : resource ∈ RESOURCES) :
  ∃ (kind : string) (metadata : gmap string json) (reply : except json),
    kind_mapping !! resource = Some kind ∧
    metadata =
      match namespace create_body with
      | None => {["name" := JStr (name create_body)]}
      | Some ns =>
          if decide (ns = "")
          then {["name" := JStr (name create_body)]}
          else {["name" := JStr (name create_body); "namespace" := JStr ns]}
      end ∧
    (∀ v, metadata !! "namespace" = Some v →
          ∃ ns, namespace create_body = Some ns ∧ v = JStr ns) ∧
    calls_of remote (create_resource resource create_body) w =
      [(create_cluster_custom_object "kubeovn.io" "v1" resource
          (JDict {["apiVersion" := JStr "kubeovn.io/v1";
                   "kind" := JStr kind;
                   "metadata" := JDict metadata;
                   "spec" := JDict (spec create_body)]}),
        reply)].
Proof.
  destruct (registered_accepted resource Hregistered) as (kind & Hkind & Hres).
  exists kind, (metadata_of create_body).
  exists (remote w (create_cluster_custom_object GROUP VERSION resource
                      (manifest_of resource create_body))).1.
  split; [done|]. split; [|split].
  - unfold metadata_of. destruct (namespace create_body) as [ns|]; [|done].
    destruct ns as [|c ns]; cbn; [done|].
    destruct (decide _) as [?|_]; [done|].
    rewrite <- !insert_empty. by apply insert_insert_ne.
  - intros v. unfold metadata_of.
    destruct (namespace create_body) as [ns|]; [destruct (PyStr.truthy ns)|].
    + rewrite lookup_insert_eq. intros [= <-]. by exists ns.
    + rewrite lookup_singleton_ne; done.
    + rewrite lookup_singleton_ne; done.
  - unfold create_resource, calls_of.
    destruct (decide (resource ∉ RESOURCES)) as [Hout|_]; [done|].
    cbn. unfold manifest_of. rewrite Hres. cbn.
    destruct (remote w _) as [[v | [status text | text]] w1]; cbn;
      try destruct (status =? 409)%Z; cbn; rewrite insert_empty; reflexivity.
Qed.

Lemma create_submits_manifest_witness :
  "subnets" ∈ RESOURCES ∧
  ∃ (kind : string) (metadata : gmap string json) (reply : except json),
    kind_mapping !! "subnets" = Some kind ∧
    metadata = {["name" := JStr "s1"]} ∧
    (∀ v, metadata !! "namespace" = Some v →
          ∃ ns, (None : option string) = Some ns ∧ v = JStr ns) ∧
    calls_of absent_remote
      (create_resource "subnets"
         {| name := "s1"; namespace := None;
            spec := {["cidrBlock" := JStr "10.0.0.0/24"]} |}) tt =
      [(create_cluster_custom_object "kubeovn.io" "v1" "subnets"
          (JDict {["apiVersion" := JStr "kubeovn.io/v1";
                   "kind" := JStr kind;
                   "metadata" := JDict metadata;
                   "spec" := JDict {["cidrBlock" := JStr "10.0.0.0/24"]}]}),
        reply)].
Proof.
  assert (Hreg : "subnets" ∈ RESOURCES) by by_evaluation.
  split; [exact Hreg|].
  exact (create_submits_manifest absent_remote tt "subnets"
           {| name := "s1"; namespace := None;
              spec := {["cidrBlock" := JStr "10.0.0.0/24"]} |} Hreg).
Defined.

(** C6: for a registered plural, when the remote answers the create call
    with an [ApiException], the endpoint raises 409 with the text
    "<Kind> '<name>' already exists" if the remote's status is 409, and
    otherwise an [HTTPException] with the remote's own status and text. *)
Theorem create_conflict_is_distinct {world : Type}
    (remote : world → call → except json * world) (w : world)
    (resource : string) (create_body : CreateBody)
    (status : Z) (text : string)
    (Hregistered : resource ∈ RESOURCES)
    (Hraised : Raised (ApiException status text)
                 ∈ replies_of remote (create_resource resource create_body) w) :
  ∃ kind : string,
    kind_mapping !! resource = Some kind ∧
    result_of remote (create_resource resource create_body) w =
      if decide (status = 409%Z)
      then HTTPException 409 (kind +:+ " '" +:+ name create_body +:+ "' already exists")
      else HTTPException status text.
Proof.
  destruct (registered_accepted resource Hregistered) as (kind & Hkind & Hres).
  exists kind. split; [done|].
  revert Hraised. unfold create_resource, replies_of, calls_of, result_of.
  destruct (decide (resource ∉ RESOURCES)) as [Hout|_]; [done|].
  cbn. rewrite Hres.
  destruct (remote w _) as [[v | [status' text' | text']] w1]; cbn;
    try destruct (Z.eqb_spec status' 409); cbn;
    intros Hin; apply list_elem_of_singleton in Hin; simplify_eq;
    case_decide; done.
Qed.

Lemma create_conflict_is_distinct_witness :
  "subnets" ∈ RESOURCES ∧
  Raised (ApiException 409 "(409) Reason: Conflict")
    ∈ replies_of (constant_remote (Raised (ApiException 409 "(409) Reason: Conflict")))
        (create_resource "subnets" {| name := "s1"; namespace := None; spec := ∅ |}) tt ∧
  ∃ kind : string,
    kind_mapping !! "subnets" = Some kind ∧
    result_of (constant_remote (Raised (ApiException 409 "(409) Reason: Conflict")))
        (create_resource "subnets" {| name := "s1"; namespace := None; spec := ∅ |}) tt =
      if decide (409%Z = 409%Z)
      then HTTPException 409 (kind +:+ " '" +:+ "s1" +:+ "' already exists")
      else HTTPException 409 "(409) Reason: Conflict".
Proof.
  assert (Hreg : "subnets" ∈ RESOURCES) by by_evaluation.
  assert (Hraised :
    Raised (ApiException 409 "(409) Reason: Conflict")
      ∈ replies_of (constant_remote (Raised (ApiException 409 "(409) Reason: Conflict")))
          (create_resource "subnets" {| name := "s1"; namespace := None; spec := ∅ |}) tt).
  { vm_compute. apply list_elem_of_here. }
  split; [exact Hreg|]. split; [exact Hraised|].
  exact (create_conflict_is_distinct _ tt "subnets"
           {| name := "s1"; namespace := None; spec := ∅ |} _ _ Hreg Hraised).
Defined.

(** POST /api/subnets with name "s1" and spec {cidrBlock: "10.0.0.0/24"}. *)
Example create_subnet_s1 :
  calls_of absent_remote
    (create_resource "subnets"
       {| name := "s1"; namespace := None;
          spec := {["cidrBlock" := JStr "10.0.0.0/24"]} |}) tt =
    [(create_cluster_custom_object "kubeovn.io" "v1" "subnets"
        (JDict {["apiVersion" := JStr "kubeovn.io/v1";
                 "kind" := JStr "Subnet";
                 "metadata" := JDict {["name" := JStr "s1"]};
                 "spec" := JDict {["cidrBlock" := JStr "10.0.0.0/24"]}]}),
      Raised (ApiException 404 "(404) Reason: Not Found"))].
Proof. vm_compute. reflexivity. Qed.

(** An empty namespace is not stored. *)
Example create_with_empty_namespace :
  metadata_of {| name := "s1"; namespace := Some ""; spec := ∅ |}
    = {["name" := JStr "s1"]} ∧
  metadata_of {| name := "s1"; namespace := Some "ns1"; spec := ∅ |}
    = {["name" := JStr "s1"; "namespace" := JStr "ns1"]}.
Proof. split; vm_compute; reflexivity. Qed.

(** ** Patch and delete *)

Lemma dict_update_union (d other : gmap string json) :
  Py.dict_update d other = other ∪ d.
Proof.
  unfold Py.dict_update.
  apply (map_fold_weak_ind (λ r m, r = m ∪ d)).
  - by rewrite (left_id_L ∅ (∪)).
  - intros i x m r _ ->. by rewrite insert_union_l.
Qed.

Lemma dict_update_lookup (d other : gmap string json) (key : string) :
  Py.dict_update d other !! key =
    match other !! key with
    | Some v => Some v
    | None => d !! key
    end.
Proof.
  rewrite dict_update_union, lookup_union.
  destruct (other !! key), (d !! key); done.
Qed.

Lemma registered_guard {A : Type} (plural : string) (x y : A) :
  plural ∈ RESOURCES → (if decide (plural ∉ RESOURCES) then x else y) = y.
Proof. intros Hreg. by destruct (decide (plural ∉ RESOURCES)). Qed.

(** Unfold a handler run and split on every remote reply and on the shape
    of the documents it reads. *)
Ltac handler_cases remote :=
  unfold result_of, replies_of, calls_of; cbn;
  repeat match goal with
  | |- context [remote ?w ?c] =>
      let E := fresh "Hreply" in
      destruct (remote w c) as [[? | [? ? | ?]] ?] eqn:E; cbn
  | |- context [Py.getitem ?v "spec"] =>
      let E := fresh "Hspec" in
      destruct (Py.getitem v "spec") as [? | ?] eqn:E; cbn
  | |- context [Py.update ?v ?o] =>
      let E := fresh "Hupdate" in
      destruct (Py.update v o) as [? | ?] eqn:E; cbn
  | |- context [(?s =? 404)%Z] => destruct (Z.eqb_spec s 404); cbn
  end.

Ltac in_replies :=
  repeat match goal with
  | H : _ ∈ _ :: _ |- _ => apply elem_of_cons in H as [H | H]
  | H : _ ∈ [] |- _ => by apply elem_of_nil in H
  end; simplify_eq.

Lemma getitem_raises_exception (v : json) (key : string) (e : exn) :
  Py.getitem v key = Raised e → ∃ text, e = Exception text.
Proof.
  destruct v; cbn; try (intros [= <-]; by eexists).
  destruct (_ !! _); [done|]. intros [= <-]. by eexists.
Qed.

Lemma update_raises_exception (v : json) (other : gmap string json) (e : exn) :
  Py.update v other = Raised e → ∃ text, e = Exception text.
Proof. destruct v; cbn; try done; intros [= <-]; by eexists. Qed.

Ltac local_exceptions :=
  repeat match goal with
  | H : Py.getitem _ _ = Raised _ |- _ =>
      apply getitem_raises_exception in H as [? ->]; cbn
  | H : Py.update _ _ = Raised _ |- _ =>
      apply update_raises_exception in H as [? ->]; cbn
  end.

(** C7: take any patch or delete endpoint of a registered plural and an
    object name, with the kind label of its messages.  When the remote
    answers the read with an [ApiException], the read is the endpoint's
    only call; when the read returns (for patch: an object whose spec is
    a mapping) and the remote answers the patch or delete call with an
    [ApiException], the endpoint has made both calls.  In either case it
    raises 404 with the text "<label> '<name>' not found" if the remote's
    status is 404, and otherwise an [HTTPException] with the remote's own
    status and text. *)
Theorem not_found_is_distinct {world : Type}
    (remote : world → call → except json * world) (w : world)
    (plural object_name : string) (patch_body : PatchBody)
    (Hregistered : plural ∈ RESOURCES) :
  (∀ (label : string) (p : prog response),
     (label, p) ∈ patch_endpoints plural object_name patch_body →
     match remote w (get_cluster_custom_object "kubeovn.io" "v1" plural object_name) with
     | (Raised (ApiException status text), _) =>
         calls_of remote p w =
           [(get_cluster_custom_object "kubeovn.io" "v1" plural object_name,
             Raised (ApiException status text))] ∧
         result_of remote p w =
           if decide (status = 404%Z)
           then HTTPException 404 (label +:+ " '" +:+ object_name +:+ "' not found")
           else HTTPException status text
     | (Value (JDict current), w1) =>
         match current !! "spec" with
         | Some (JDict current_spec) =>
             match remote w1
                     (patch_cluster_custom_object "kubeovn.io" "v1" plural object_name
                        (JDict (<["spec" := JDict (Py.dict_update current_spec
                                                     (patch_spec patch_body))]> current)))
             with
             | (Raised (ApiException status text), _) =>
                 calls_of remote p w =
                   [(get_cluster_custom_object "kubeovn.io" "v1" plural object_name,
                     Value (JDict current));
                    (patch_cluster_custom_object "kubeovn.io" "v1" plural object_name
                       (JDict (<["spec" := JDict (Py.dict_update current_spec
                                                    (patch_spec patch_body))]> current)),
                     Raised (ApiException status text))] ∧
                 result_of remote p w =
                   if decide (status = 404%Z)
                   then HTTPException 404 (label +:+ " '" +:+ object_name +:+ "' not found")
                   else HTTPException status text
             | _ => True
             end
         | _ => True
         end
     | _ => True
     end) ∧
  (∀ (label : string) (p : prog response),
     (label, p) ∈ delete_endpoints plural object_name →
     match remote w (get_cluster_custom_object "kubeovn.io" "v1" plural object_name) with
     | (Raised (ApiException status text), _) =>
         calls_of remote p w =
           [(get_cluster_custom_object "kubeovn.io" "v1" plural object_name,
             Raised (ApiException status text))] ∧
         result_of remote p w =
           if decide (status = 404%Z)
           then HTTPException 404 (label +:+ " '" +:+ object_name +:+ "' not found")
           else HTTPException status text
     | (Value v, w1) =>
         match remote w1
                 (delete_cluster_custom_object "kubeovn.io" "v1" plural object_name) with
         | (Raised (ApiException status text), _) =>
             calls_of remote p w =
               [(get_cluster_custom_object "kubeovn.io" "v1" plural object_name, Value v);
                (delete_cluster_custom_object "kubeovn.io" "v1" plural object_name,
                 Raised (ApiException status text))] ∧
             result_of remote p w =
               if decide (status = 404%Z)
               then HTTPException 404 (label +:+ " '" +:+ object_name +:+ "' not found")
               else HTTPException status text
         | _ => True
         end
     | _ => True
     end).
Proof.
  split; intros label p Hendpoint.
  - unfold patch_endpoints in Hendpoint.
    apply elem_of_cons in Hendpoint as [[= -> ->] | Hendpoint];
      [|apply elem_of_app in Hendpoint as [Hendpoint | Hendpoint]; case_decide;
        try (by apply elem_of_nil in Hendpoint);
        apply list_elem_of_singleton in Hendpoint as [= -> ->]; subst plural];
      unfold patch_resource, patch_subnet, patch_vpc_nat_gateway;
      rewrite ?(registered_guard _ _ _ Hregistered);
      try (generalize (PyStr.capitalize plural); intros label);
      unfold calls_of, result_of; cbn; unfold GROUP, VERSION;
      (destruct (remote w _) as [[v | [status text | text]] w1]; cbn;
       [|destruct (Z.eqb_spec status 404); case_decide; done|exact I]);
      (destruct v as [| | | | | |current]; try exact I); cbn;
      (destruct (current !! "spec") as [[| | | | | |current_spec]|]; try exact I); cbn;
      (destruct (remote w1 _) as [[v2 | [status text | text]] w2]; cbn; try exact I);
      destruct (Z.eqb_spec status 404); case_decide; done.
  - unfold delete_endpoints in Hendpoint.
    apply elem_of_cons in Hendpoint as [[= -> ->] | Hendpoint];
      [|apply elem_of_app in Hendpoint as [Hendpoint | Hendpoint]; case_decide;
        try (by apply elem_of_nil in Hendpoint);
        apply list_elem_of_singleton in Hendpoint as [= -> ->]; subst plural];
      unfold delete_resource, delete_subnet, delete_vpc_nat_gateway;
      rewrite ?(registered_guard _ _ _ Hregistered);
      try (generalize (PyStr.capitalize plural); intros label);
      unfold calls_of, result_of; cbn; unfold GROUP, VERSION;
      (destruct (remote w _) as [[v | [status text | text]] w1]; cbn;
       [|destruct (Z.eqb_spec status 404); case_decide; done|exact I]);
      (destruct (remote w1 _) as [[v2 | [status text | text]] w2]; cbn; try exact I);
      destruct (Z.eqb_spec status 404); case_decide; done.
Qed.

Lemma not_found_is_distinct_witness :
  "subnets" ∈ RESOURCES ∧
  (calls_of absent_remote (patch_subnet "s1" {| patch_spec := ∅ |}) tt =
     [(get_cluster_custom_object "kubeovn.io" "v1" "subnets" "s1",
       Raised (ApiException 404 "(404) Reason: Not Found"))] ∧
   result_of absent_remote (patch_subnet "s1" {| patch_spec := ∅ |}) tt =
     HTTPException 404 "Subnet 's1' not found") ∧
  (calls_of absent_remote (patch_resource "subnets" "s1" {| patch_spec := ∅ |}) tt =
     [(get_cluster_custom_object "kubeovn.io" "v1" "subnets" "s1",
       Raised (ApiException 404 "(404) Reason: Not Found"))] ∧
   result_of absent_remote (patch_resource "subnets" "s1" {| patch_spec := ∅ |}) tt =
     HTTPException 404 "Subnets 's1' not found") ∧
  (calls_of absent_remote (delete_subnet "s1") tt =
     [(get_cluster_custom_object "kubeovn.io" "v1" "subnets" "s1",
       Raised (ApiException 404 "(404) Reason: Not Found"))] ∧
   result_of absent_remote (delete_subnet "s1") tt =
     HTTPException 404 "Subnet 's1' not found") ∧
  (calls_of absent_remote (delete_resource "subnets" "s1") tt =
     [(get_cluster_custom_object "kubeovn.io" "v1" "subnets" "s1",
       Raised (ApiException 404 "(404) Reason: Not Found"))] ∧
   result_of absent_remote (delete_resource "subnets" "s1") tt =
     HTTPException 404 "Subnets 's1' not found").
Proof.
  assert (Hreg : "subnets" ∈ RESOURCES) by by_evaluation.
  destruct (not_found_is_distinct absent_remote tt "subnets" "s1" {| patch_spec := ∅ |} Hreg)
    as [Hpatch Hdelete].
  split; [exact Hreg|].
  split; [apply (Hpatch "Subnet" (patch_subnet "s1" {| patch_spec := ∅ |}));
          apply elem_of_cons; right; apply list_elem_of_here|].
  split; [apply (Hpatch "Subnets" (patch_resource "subnets" "s1" {| patch_spec := ∅ |}));
          apply list_elem_of_here|].
  split; [apply (Hdelete "Subnet" (delete_subnet "s1"));
          apply elem_of_cons; right; apply list_elem_of_here|].
  apply (Hdelete "Subnets" (delete_resource "subnets" "s1")). apply list_elem_of_here.
Defined.

(** C2: let the remote answer the read of a registered plural's object
    with [current], whose spec is the mapping [current_spec].  Then every
    patch endpoint for that plural (the generic one, and the one of its
    own for "subnets" and "vpc-nat-gateways") makes two calls, the read
    and the patch call, and the patch call submits [current] with its
    spec replaced by the merge: a key of the patch carries the patch's
    value whole, whatever the current value was, and every other key
    keeps its current value. *)
Theorem patch_is_shallow_merge {world : Type}
    (remote : world → call → except json * world) (w w1 : world)
    (plural object_name : string) (patch_body : PatchBody)
    (current current_spec : gmap string json)
    (Hregistered : plural ∈ RESOURCES)
    (Hread : remote w (get_cluster_custom_object "kubeovn.io" "v1" plural object_name)
             = (Value (JDict current), w1))
    (Hspec : current !! "spec" = Some (JDict current_spec)) :
  ∃ merged : gmap string json,
    (∀ key : string,
       merged !! key =
         match patch_spec patch_body !! key with
         | Some v => Some v
         | None => current_spec !! key
         end) ∧
    (∀ (label : string) (p : prog response),
       (label, p) ∈ patch_endpoints plural object_name patch_body →
       ∃ reply : except json,
         calls_of remote p w =
           [(get_cluster_custom_object "kubeovn.io" "v1" plural object_name,
             Value (JDict current));
            (patch_cluster_custom_object "kubeovn.io" "v1" plural object_name
               (JDict (<["spec" := JDict merged]> current)),
             reply)]).
Proof.
  exists (Py.dict_update current_spec (patch_spec patch_body)).
  split; [intros key; apply dict_update_lookup|].
  intros label p Hendpoint.
  exists (remote w1 (patch_cluster_custom_object GROUP VERSION plural object_name
            (JDict (<["spec" := JDict (Py.dict_update current_spec (patch_spec patch_body))]>
                      current)))).1.
  unfold patch_endpoints in Hendpoint.
  apply elem_of_cons in Hendpoint as [[= -> ->] | Hendpoint];
    [|apply elem_of_app in Hendpoint as [Hendpoint | Hendpoint];
      case_decide; try (by apply elem_of_nil in Hendpoint);
      apply list_elem_of_singleton in Hendpoint as [= -> ->]; subst plural].
  - unfold patch_resource. rewrite (registered_guard _ _ _ Hregistered).
    unfold calls_of. cbn. unfold GROUP, VERSION in *. rewrite Hread. cbn.
    rewrite Hspec. cbn.
    destruct (remote w1 _) as [[v | [status text | text]] w2]; reflexivity.
  - unfold patch_subnet, calls_of. cbn. unfold GROUP, VERSION in *. rewrite Hread. cbn.
    rewrite Hspec. cbn.
    destruct (remote w1 _) as [[v | [status text | text]] w2]; reflexivity.
  - unfold patch_vpc_nat_gateway, calls_of. cbn. unfold GROUP, VERSION in *.
    rewrite Hread. cbn. rewrite Hspec. cbn.
    destruct (remote w1 _) as [[v | [status text | text]] w2]; reflexivity.
Qed.

Lemma patch_is_shallow_merge_witness :
  "subnets" ∈ RESOURCES ∧
  constant_remote (Value (JDict {["spec" := JDict {["a" := JInt 1; "b" := JInt 3]}]})) tt
      (get_cluster_custom_object "kubeovn.io" "v1" "subnets" "s1")
    = (Value (JDict {["spec" := JDict {["a" := JInt 1; "b" := JInt 3]}]}), tt) ∧
  ({["spec" := JDict {["a" := JInt 1; "b" := JInt 3]}]} : gmap string json) !! "spec"
    = Some (JDict {["a" := JInt 1; "b" := JInt 3]}) ∧
  ∃ merged : gmap string json,
    (∀ key : string,
       merged !! key =
         match ({["a" := JInt 2]} : gmap string json) !! key with
         | Some v => Some v
         | None => ({["a" := JInt 1; "b" := JInt 3]} : gmap string json) !! key
         end) ∧
    (∀ (label : string) (p : prog response),
       (label, p) ∈ patch_endpoints "subnets" "s1" {| patch_spec := {["a" := JInt 2]} |} →
       ∃ reply : except json,
         calls_of
           (constant_remote
              (Value (JDict {["spec" := JDict {["a" := JInt 1; "b" := JInt 3]}]})))
           p tt =
           [(get_cluster_custom_object "kubeovn.io" "v1" "subnets" "s1",
             Value (JDict {["spec" := JDict {["a" := JInt 1; "b" := JInt 3]}]}));
            (patch_cluster_custom_object "kubeovn.io" "v1" "subnets" "s1"
               (JDict (<["spec" := JDict merged]>
                         {["spec" := JDict {["a" := JInt 1; "b" := JInt 3]}]})),
             reply)]).
Proof.
  assert (Hreg : "subnets" ∈ RESOURCES) by by_evaluation.
  split; [exact Hreg|]. split; [reflexivity|]. split; [reflexivity|].
  exact (patch_is_shallow_merge
           (constant_remote
              (Value (JDict {["spec" := JDict {["a" := JInt 1; "b" := JInt 3]}]})))
           tt tt "subnets" "s1" {| patch_spec := {["a" := JInt 2]} |}
           {["spec" := JDict {["a" := JInt 1; "b" := JInt 3]}]}
           {["a" := JInt 1; "b" := JInt 3]}
           Hreg eq_refl eq_refl).
Defined.

(** Patching {a: 2} onto {a: 1, b: 3} gives {a: 2, b: 3}. *)
Example merge_a2_onto_a1_b3 :
  Py.dict_update {["a" := JInt 1; "b" := JInt 3]} {["a" := JInt 2]}
    = {["a" := JInt 2; "b" := JInt 3]}.
Proof. vm_compute. reflexivity. Qed.

(** A nested mapping under a colliding key is replaced, not merged. *)
Example merge_replaces_nested :
  Py.dict_update
    {["a" := JDict {["x" := JInt 1; "y" := JInt 2]}; "b" := JInt 3]}
    {["a" := JDict {["x" := JInt 9]}]}
    = {["a" := JDict {["x" := JInt 9]}; "b" := JInt 3]}.
Proof. vm_compute. reflexivity. Qed.

(** The object that PATCH /api/subnets/s1 submits for that patch. *)
Example patch_subnet_s1 :
  calls_of
    (constant_remote (Value (JDict {["spec" := JDict {["a" := JInt 1; "b" := JInt 3]}]})))
    (patch_subnet "s1" {| patch_spec := {["a" := JInt 2]} |}) tt =
    [(get_cluster_custom_object "kubeovn.io" "v1" "subnets" "s1",
      Value (JDict {["spec" := JDict {["a" := JInt 1; "b" := JInt 3]}]}));
     (patch_cluster_custom_object "kubeovn.io" "v1" "subnets" "s1"
        (JDict {["spec" := JDict {["a" := JInt 2; "b" := JInt 3]}]}),
      Value (JDict {["spec" := JDict {["a" := JInt 1; "b" := JInt 3]}]}))].
Proof. vm_compute. reflexivity. Qed.

(** ** The routes of "subnets" and "vpc-nat-gateways" *)

Lemma subnets_registered : "subnets" ∈ RESOURCES.
Proof. by_evaluation. Qed.

Lemma vpc_nat_gateways_registered : "vpc-nat-gateways" ∈ RESOURCES.
Proof. by_evaluation. Qed.

Ltac compare_runs remote :=
  unfold same_up_to_label; handler_cases remote; local_exceptions;
  repeat split; auto.

Section SameUpToLabel.
Context {world : Type}.
Variable remote : world → call → except json * world.
Variable w : world.

Lemma patch_subnet_same (object_name : string) (patch_body : PatchBody) :
  same_up_to_label remote w
    (patch_subnet object_name patch_body)
    (patch_resource "subnets" object_name patch_body)
    "Subnet" "Subnets" object_name.
Proof.
  unfold patch_subnet, patch_resource.
  rewrite (registered_guard _ _ _ subnets_registered).
  change (PyStr.capitalize "subnets") with "Subnets".
  compare_runs remote.
Qed.

Lemma patch_vpc_nat_gateway_same (object_name : string) (patch_body : PatchBody) :
  same_up_to_label remote w
    (patch_vpc_nat_gateway object_name patch_body)
    (patch_resource "vpc-nat-gateways" object_name patch_body)
    "VPC NAT Gateway" "Vpc-nat-gateways" object_name.
Proof.
  unfold patch_vpc_nat_gateway, patch_resource.
  rewrite (registered_guard _ _ _ vpc_nat_gateways_registered).
  change (PyStr.capitalize "vpc-nat-gateways") with "Vpc-nat-gateways".
  compare_runs remote.
Qed.

Lemma delete_subnet_same (object_name : string) :
  same_up_to_label remote w
    (delete_subnet object_name)
    (delete_resource "subnets" object_name)
    "Subnet" "Subnets" object_name.
Proof.
  unfold delete_subnet, delete_resource.
  rewrite (registered_guard _ _ _ subnets_registered).
  change (PyStr.capitalize "subnets") with "Subnets".
  compare_runs remote.
Qed.

Lemma delete_vpc_nat_gateway_same (object_name : string) :
  same_up_to_label remote w
    (delete_vpc_nat_gateway object_name)
    (delete_resource "vpc-nat-gateways" object_name)
    "VPC NAT Gateway" "Vpc-nat-gateways" object_name.
Proof.
  unfold delete_vpc_nat_gateway, delete_resource.
  rewrite (registered_guard _ _ _ vpc_nat_gateways_registered).
  change (PyStr.capitalize "vpc-nat-gateways") with "Vpc-nat-gateways".
  compare_runs remote.
Qed.

End SameUpToLabel.

Lemma generic_pattern_matches (plural object_name : string) :
  param_ok plural = true → param_ok object_name = true →
  match_path [Lit "api"; Param; Param] ["api"; plural; object_name]
    = Some [plural; object_name].
Proof. intros Hp Hn. cbn. rewrite Hp, Hn. reflexivity. Qed.

(** C5 as amended: for an object name that is a path segment, PATCH and
    DELETE on /api/subnets/<name> and /api/vpc-nat-gateways/<name> are
    served by the kind's own handler although the generic pattern matches
    the path too.  Against every remote, the kind's own handler and the
    generic handler called with that kind make the same calls and answer
    with the same status; their responses are equal except that the 404
    detail and the delete confirmation carry "Subnet" or "VPC NAT Gateway"
    in the one and "Subnets" or "Vpc-nat-gateways" in the other. *)
Theorem specific_routes_precede_and_agree_up_to_label {world : Type}
    (remote : world → call → except json * world) (w : world)
    (object_name : string) (patch_body : PatchBody)
    (Hsegment : param_ok object_name = true) :
  (app (Patch ["api"; "subnets"; object_name] patch_body)
     = Some (patch_subnet object_name patch_body) ∧
   app (Patch ["api"; "vpc-nat-gateways"; object_name] patch_body)
     = Some (patch_vpc_nat_gateway object_name patch_body) ∧
   app (Delete ["api"; "subnets"; object_name])
     = Some (delete_subnet object_name) ∧
   app (Delete ["api"; "vpc-nat-gateways"; object_name])
     = Some (delete_vpc_nat_gateway object_name)) ∧
  (match_path [Lit "api"; Param; Param] ["api"; "subnets"; object_name]
     = Some ["subnets"; object_name] ∧
   match_path [Lit "api"; Param; Param] ["api"; "vpc-nat-gateways"; object_name]
     = Some ["vpc-nat-gateways"; object_name]) ∧
  same_up_to_label remote w
    (patch_subnet object_name patch_body)
    (patch_resource "subnets" object_name patch_body)
    "Subnet" "Subnets" object_name ∧
  same_up_to_label remote w
    (patch_vpc_nat_gateway object_name patch_body)
    (patch_resource "vpc-nat-gateways" object_name patch_body)
    "VPC NAT Gateway" "Vpc-nat-gateways" object_name ∧
  same_up_to_label remote w
    (delete_subnet object_name)
    (delete_resource "subnets" object_name)
    "Subnet" "Subnets" object_name ∧
  same_up_to_label remote w
    (delete_vpc_nat_gateway object_name)
    (delete_resource "vpc-nat-gateways" object_name)
    "VPC NAT Gateway" "Vpc-nat-gateways" object_name.
Proof.
  split; [|split].
  - unfold app, route. cbn. rewrite Hsegment. cbn. done.
  - split; apply generic_pattern_matches; done.
  - split; [apply patch_subnet_same|].
    split; [apply patch_vpc_nat_gateway_same|].
    split; [apply delete_subnet_same | apply delete_vpc_nat_gateway_same].
Qed.

(** C5 as stated fails: when the remote answers "not found",
    PATCH /api/subnets/s1 raises 404 with the detail "Subnet 's1' not
    found" and the generic handler called with "subnets" raises 404 with
    the detail "Subnets 's1' not found". *)
Lemma specific_and_generic_details_differ :
  app (Patch ["api"; "subnets"; "s1"] {| patch_spec := ∅ |})
    = Some (patch_subnet "s1" {| patch_spec := ∅ |}) ∧
  result_of absent_remote (patch_subnet "s1" {| patch_spec := ∅ |}) tt
    = HTTPException 404 "Subnet 's1' not found" ∧
  result_of absent_remote (patch_resource "subnets" "s1" {| patch_spec := ∅ |}) tt
    = HTTPException 404 "Subnets 's1' not found" ∧
  result_of absent_remote (patch_subnet "s1" {| patch_spec := ∅ |}) tt
    ≠ result_of absent_remote (patch_resource "subnets" "s1" {| patch_spec := ∅ |}) tt.
Proof.
  split; [reflexivity|]. split; [reflexivity|]. split; [reflexivity|].
  vm_compute. discriminate.
Qed.

(** The delete confirmations differ likewise. *)
Example specific_and_generic_confirmations_differ :
  result_of (constant_remote (Value JNull)) (delete_subnet "s1") tt
    = Return (JDict {["message" := JStr "Subnet 's1' deleted successfully"]}) ∧
  result_of (constant_remote (Value JNull)) (delete_resource "subnets" "s1") tt
    = Return (JDict {["message" := JStr "Subnets 's1' deleted successfully"]}).
Proof. split; vm_compute; reflexivity. Qed.

Lemma specific_routes_precede_and_agree_up_to_label_witness :
  param_ok "s1" = true ∧
  app (Patch ["api"; "subnets"; "s1"] {| patch_spec := ∅ |})
    = Some (patch_subnet "s1" {| patch_spec := ∅ |}) ∧
  match_path [Lit "api"; Param; Param] ["api"; "subnets"; "s1"]
    = Some ["subnets"; "s1"] ∧
  same_up_to_label absent_remote tt
    (patch_subnet "s1" {| patch_spec := ∅ |})
    (patch_resource "subnets" "s1" {| patch_spec := ∅ |})
    "Subnet" "Subnets" "s1" ∧
  same_up_to_label absent_remote tt
    (delete_vpc_nat_gateway "s1")
    (delete_resource "vpc-nat-gateways" "s1")
    "VPC NAT Gateway" "Vpc-nat-gateways" "s1".
Proof.
  split; [reflexivity|].
  destruct (specific_routes_precede_and_agree_up_to_label
              absent_remote tt "s1" {| patch_spec := ∅ |} eq_refl)
    as ((Hroute & _) & (Hgeneric & _) & Hpatch & _ & _ & Hdelete).
  split; [exact Hroute|]. split; [exact Hgeneric|].
  split; [exact Hpatch | exact Hdelete].
Defined.

(** ** The watch relay *)

Module RelayFacts.
Import Relay.

Lemma message_of_dict (resource : string) (d : gmap string json) (ty object : json) :
  d !! "type" = Some ty → d !! "object" = Some object →
  message_of resource (JDict d)
    = Value (JDict {["resource" := JStr resource; "type" := ty; "object" := object]}).
Proof.
  intros Hty Hobj. unfold message_of. cbn. rewrite Hty, Hobj.
  cbn. by rewrite insert_empty.
Qed.

Lemma forward_value (resource : string) (event message : json) :
  message_of resource event = Value message →
  forward resource event = [ws_send_json message].
Proof.
  destruct event as [| | | | | |d]; try discriminate.
  unfold message_of, forward. cbn.
  destruct (d !! "type") as [ty|]; [|discriminate].
  destruct (d !! "object") as [object|]; [|discriminate].
  cbn. rewrite insert_empty. by intros [= <-].
Qed.

Lemma forward_raised (resource : string) (event : json) (e : exn) :
  message_of resource event = Raised e → forward resource event = [].
Proof.
  destruct event as [| | | | | |d]; try done.
  unfold message_of, forward. cbn.
  destruct (d !! "type") as [ty|]; [|done].
  destruct (d !! "object") as [object|]; [|done].
  discriminate.
Qed.

Lemma well_formed_value (resource : string) (event : json) :
  well_formed event = true → ∃ message, message_of resource event = Value message.
Proof.
  destruct event as [| | | | | |d]; try discriminate. cbn.
  intros [[ty Hty]%bool_decide_eq_true_1 [object Hobj]%bool_decide_eq_true_1]%andb_prop.
  eexists. by apply message_of_dict.
Qed.

Lemma steps_app (st : state) (xs ys : list answer) :
  steps st (xs ++ ys) =
    (let '(st1, out1) := steps st xs in
     let '(st2, out2) := steps st1 ys in
     (st2, out1 ++ out2))%list.
Proof.
  revert st. induction xs as [|x xs IH]; intros st; cbn.
  - by destruct (steps st ys).
  - destruct (step st x) as [st1 out1]. rewrite IH.
    destruct (steps st1 xs) as [st2 out2], (steps st2 ys) as [st3 out3].
    by rewrite app_assoc.
Qed.

Lemma steps_closed (answers : list answer) : steps Closed answers = (Closed, []).
Proof. induction answers as [|a answers IH]; cbn; [done|]. by rewrite IH. Qed.

Lemma steps_yielded (resource : string) (remaining : list string) (events : list json) :
  forallb well_formed events = true →
  steps (Streaming resource remaining) (map yielded events)
    = (Streaming resource remaining, flat_map (forward resource) events).
Proof.
  induction events as [|event events IH]; cbn; [done|].
  intros [Hwf Hrest]%andb_prop.
  destruct (well_formed_value resource event Hwf) as [message Hmessage].
  rewrite Hmessage, (forward_value _ _ _ Hmessage), (IH Hrest). done.
Qed.

Lemma answers_of_next (events events' : list json) (segments : list (list json)) :
  answers_of (events :: events' :: segments)
    = (map yielded events ++ Exhausted :: answers_of (events' :: segments))%list.
Proof. reflexivity. Qed.

Lemma steps_segments (resource : string) (remaining : list string)
    (events : list json) (segments : list (list json)) :
  forallb (forallb well_formed) (events :: segments) = true →
  (List.length segments ≤ List.length remaining)%nat →
  steps (Streaming resource remaining) (answers_of (events :: segments)) =
    (match drop (List.length segments) (resource :: remaining) with
     | resource' :: remaining' => Streaming resource' remaining'
     | [] => Closed
     end,
     (flat_map (forward resource) events ++ streamed remaining segments)%list).
Proof.
  revert resource remaining events.
  induction segments as [|events' segments IH]; intros resource remaining events.
  - intros [Hwf _]%andb_prop _. cbn [answers_of]. rewrite app_nil_r.
    rewrite (steps_yielded _ _ _ Hwf). cbn.
    destruct remaining; cbn; by rewrite app_nil_r.
  - intros [Hwf Hrest]%andb_prop Hlen.
    destruct remaining as [|resource' remaining']; [cbn in Hlen; lia|].
    rewrite answers_of_next, steps_app, (steps_yielded _ _ _ Hwf).
    cbn [steps step next_kind]. rewrite IH; [|done|cbn in Hlen; lia].
    reflexivity.
Qed.

Lemma step_failure (resource : string) (remaining : list string) (a : answer) (text : string) :
  failure_of resource a = Some text →
  step (Streaming resource remaining) a
    = (Closed, (attempted resource a ++ on_error text)%list).
Proof.
  destruct a as [event send | | text']; cbn; [|done|by intros [= ->]].
  destruct (message_of resource event) as [message | e] eqn:Hmessage.
  - intros ->. by rewrite (forward_value _ _ _ Hmessage).
  - intros [= <-]. by rewrite (forward_raised _ _ _ Hmessage).
Qed.

Lemma endpoint_accepted (answers : list answer) :
  websocket_endpoint None answers =
    (let '(st, out) := steps (Streaming "vpcs" (List.tl RESOURCES)) answers in
     (st, ws_accept :: watch_stream GROUP VERSION "vpcs" :: out)).
Proof.
  unfold websocket_endpoint. cbn [next_kind RESOURCES List.tl].
  by destruct (steps _ answers).
Qed.

(** X18: after [accept] returns, the relay opens the watch of the first kind;
    while the streams yield events that have a type and an object and the
    sends succeed, it walks the registry in order, one subscription per
    kind, opened when the stream before it ends, and sends for every event
    the message {resource, type, object}.  On the first failure (the
    stream raises, the event cannot be turned into a message, or the send
    raises) it prints the error, stops the watch and ends, and what the
    streams would yield later is not looked at. *)
Theorem relay_forwards_until_the_first_failure
    (events : list json) (segments : list (list json))
    (resource : string) (a : answer) (later : list answer) (text : string)
    (Hkind : RESOURCES !! List.length segments = Some resource)
    (Hevents : forallb (forallb well_formed) (events :: segments) = true)
    (Hfail : failure_of resource a = Some text) :
  websocket_endpoint None (answers_of (events :: segments) ++ a :: later)%list
    = (Closed,
       (ws_accept :: streamed RESOURCES (events :: segments)
        ++ attempted resource a
        ++ [print ("WebSocket error: " +:+ text); watch_stop])%list).
Proof.
  rewrite endpoint_accepted, steps_app.
  pose proof (lookup_lt_Some _ _ _ Hkind) as Hlen.
  rewrite steps_segments; [|done|cbn in *; lia].
  change ("vpcs" :: List.tl RESOURCES) with RESOURCES.
  rewrite (drop_S _ _ _ Hkind).
  cbn [steps]. rewrite (step_failure _ _ _ _ Hfail), steps_closed.
  change (streamed RESOURCES (events :: segments))
    with (watch_stream GROUP VERSION "vpcs"
          :: flat_map (forward "vpcs") events ++ streamed (List.tl RESOURCES) segments)%list.
  unfold on_error. rewrite app_nil_r.
  rewrite <- ?app_comm_cons, <- !app_assoc. reflexivity.
Qed.

Lemma relay_forwards_until_the_first_failure_witness :
  RESOURCES !! 1 = Some "subnets" ∧
  forallb (forallb well_formed)
    [[JDict {["type" := JStr "ADDED"; "object" := JDict {["kind" := JStr "Vpc"]}]}];
     [JDict {["type" := JStr "DELETED"; "object" := JDict {["kind" := JStr "Subnet"]}]}]]
    = true ∧
  failure_of "subnets" (StreamRaises "connection reset") = Some "connection reset" ∧
  websocket_endpoint None
    [Yields (JDict {["type" := JStr "ADDED"; "object" := JDict {["kind" := JStr "Vpc"]}]})
       None;
     Exhausted;
     Yields (JDict {["type" := JStr "DELETED"; "object" := JDict {["kind" := JStr "Subnet"]}]})
       None;
     StreamRaises "connection reset";
     Exhausted]
    = (Closed,
       [ws_accept;
        watch_stream "kubeovn.io" "v1" "vpcs";
        ws_send_json (JDict {["resource" := JStr "vpcs"; "type" := JStr "ADDED";
                              "object" := JDict {["kind" := JStr "Vpc"]}]});
        watch_stream "kubeovn.io" "v1" "subnets";
        ws_send_json (JDict {["resource" := JStr "subnets"; "type" := JStr "DELETED";
                              "object" := JDict {["kind" := JStr "Subnet"]}]});
        print "WebSocket error: connection reset";
        watch_stop]).
Proof.
  split; [reflexivity|]. split; [reflexivity|]. split; [reflexivity|].
  exact (relay_forwards_until_the_first_failure
    [JDict {["type" := JStr "ADDED"; "object" := JDict {["kind" := JStr "Vpc"]}]}]
    [[JDict {["type" := JStr "DELETED"; "object" := JDict {["kind" := JStr "Subnet"]}]}]]
    "subnets" (StreamRaises "connection reset") [Exhausted] "connection reset"
    eq_refl eq_refl eq_refl).
Defined.

(** The run in which the first stream raises at once. *)
Example relay_when_the_first_stream_raises :
  websocket_endpoint None [StreamRaises "connection reset"]
    = (Closed,
       [ws_accept;
        watch_stream "kubeovn.io" "v1" "vpcs";
        print "WebSocket error: connection reset";
        watch_stop]).
Proof. reflexivity. Qed.

(** When every stream ends, the relay stops the watch after the last
    kind. *)
Example relay_after_the_last_kind :
  (websocket_endpoint None (replicate 20 Exhausted)).1 = Closed ∧
  last (websocket_endpoint None (replicate 20 Exhausted)).2 = Some watch_stop ∧
  omap is_stream (websocket_endpoint None (replicate 20 Exhausted)).2 = RESOURCES.
Proof. repeat split. Qed.

End RelayFacts.

(** * Further properties of the handlers *)

(** ** The list endpoint *)

(** X1: the list endpoint never raises: for every plural, registered or
    not, and against every remote it returns a document (status 200), also
    when the remote raises, and it makes at most one remote call. *)
Theorem list_never_raises {world : Type}
    (remote : world → call → except json * world) (w : world) (resource : string) :
  (∃ body, result_of remote (get_resources resource) w = Return body) ∧
  status_of (result_of remote (get_resources resource) w) = 200%Z ∧
  (List.length (calls_of remote (get_resources resource) w) ≤ 1)%nat.
Proof.
  unfold get_resources, result_of, calls_of.
  destruct (decide (resource ∉ RESOURCES)); cbn; [eauto|].
  destruct (remote w _) as [[v | [status text | text]] w1]; cbn; eauto.
  destruct (Py.getitem v "items") as [items | e] eqn:Hitems; cbn; [eauto|].
  apply getitem_raises_exception in Hitems as [text ->]. cbn. eauto.
Qed.

(** X2: for a registered plural the list endpoint makes exactly one call,
    the list call for that plural in group "kubeovn.io", version "v1".
    From a returned mapping it hands back what is under "items", or the
    error document for the missing key; from a raised exception of any
    kind it hands back the error document with the exception's text. *)
Theorem list_returns_items_or_error_document {world : Type}
    (remote : world → call → except json * world) (w : world) (resource : string)
    (Hregistered : resource ∈ RESOURCES) :
  ∃ reply : except json,
    calls_of remote (get_resources resource) w
      = [(list_cluster_custom_object "kubeovn.io" "v1" resource, reply)] ∧
    match reply with
    | Value (JDict result) =>
        result_of remote (get_resources resource) w =
          match result !! "items" with
          | Some items => Return items
          | None => Return (JDict {["error" := JStr "'items'"]})
          end
    | Value _ =>
        ∃ text, result_of remote (get_resources resource) w
                = Return (JDict {["error" := JStr text]})
    | Raised (ApiException _ text) | Raised (Exception text) =>
        result_of remote (get_resources resource) w
          = Return (JDict {["error" := JStr text]})
    end.
Proof.
  unfold get_resources, result_of, calls_of.
  rewrite (registered_guard _ _ _ Hregistered). cbn.
  destruct (remote w _) as [[v | [status text | text]] w1]; cbn;
    [|eexists; split; reflexivity..].
  destruct v as [| | | | | |result]; cbn;
    try (eexists; split; [reflexivity|]; cbn; eauto).
  destruct (result !! "items") as [items|] eqn:Hitems; cbn;
    (eexists; split; [reflexivity|]); cbn; by rewrite Hitems.
Qed.

Lemma list_returns_items_or_error_document_witness :
  "vpcs" ∈ RESOURCES ∧
  calls_of (constant_remote (Value (JDict {["items" := JList [JStr "vpc-1"]]})))
     (get_resources "vpcs") tt
    = [(list_cluster_custom_object "kubeovn.io" "v1" "vpcs",
        Value (JDict {["items" := JList [JStr "vpc-1"]]}))] ∧
  result_of (constant_remote (Value (JDict {["items" := JList [JStr "vpc-1"]]})))
     (get_resources "vpcs") tt
    = Return (JList [JStr "vpc-1"]).
Proof.
  assert (Hreg : "vpcs" ∈ RESOURCES) by by_evaluation.
  split; [exact Hreg|].
  destruct (list_returns_items_or_error_document
              (constant_remote (Value (JDict {["items" := JList [JStr "vpc-1"]]})))
              tt "vpcs" Hreg) as (reply & Hcalls & Hresult).
  assert (Hreply : reply = Value (JDict {["items" := JList [JStr "vpc-1"]]})).
  { vm_compute in Hcalls. by injection Hcalls as <-. }
  subst reply. split; [exact Hcalls | exact Hresult].
Defined.

(** ** Failures of the writing endpoints *)

Ltac failure_cases remote :=
  unfold result_of, replies_of, calls_of; cbn;
  repeat match goal with
  | |- context [remote ?w ?c] =>
      let E := fresh "Hreply" in
      destruct (remote w c) as [[? | [? ? | ?]] ?] eqn:E; cbn
  | |- context [Py.getitem ?v "spec"] =>
      let E := fresh "Hspec" in
      destruct (Py.getitem v "spec") as [? | ?] eqn:E; cbn
  | |- context [Py.update ?v ?o] =>
      let E := fresh "Hupdate" in
      destruct (Py.update v o) as [? | ?] eqn:E; cbn
  | |- context [(?s =? 404)%Z] => destruct (Z.eqb_spec s 404); cbn
  | |- context [(?s =? 409)%Z] => destruct (Z.eqb_spec s 409); cbn
  end.

Ltac unfold_handlers :=
  unfold create_resource, patch_resource, delete_resource, patch_subnet,
    patch_vpc_nat_gateway, delete_subnet, delete_vpc_nat_gateway.

Lemma mutating_endpoints_cases (plural object_name : string)
    (create_body : CreateBody) (patch_body : PatchBody) (p : prog response) :
  p ∈ mutating_endpoints plural object_name create_body patch_body →
  p = create_resource plural create_body ∨
  p = patch_resource plural object_name patch_body ∨
  p = patch_subnet object_name patch_body ∨
  p = patch_vpc_nat_gateway object_name patch_body ∨
  p = delete_resource plural object_name ∨
  p = delete_subnet object_name ∨
  p = delete_vpc_nat_gateway object_name.
Proof.
  unfold mutating_endpoints, patch_endpoints, delete_endpoints. intros Hin.
  apply elem_of_cons in Hin as [-> | Hin]; [auto|].
  apply elem_of_app in Hin as [Hin | Hin];
    apply list_elem_of_fmap in Hin as ([label q] & -> & Hin); cbn;
    (apply elem_of_cons in Hin as [[= -> ->] | Hin]; [auto 10|]);
    apply elem_of_app in Hin as [Hin | Hin]; case_decide;
    try (by apply elem_of_nil in Hin);
    apply list_elem_of_singleton in Hin as [= -> ->]; auto 10.
Qed.

(** X3: the writing endpoints never swallow a failure.  Whenever the
    remote raises during create, patch or delete, the endpoint raises an
    [HTTPException] whose status is the remote's own status for an
    [ApiException] and 500 for every other exception. *)
Theorem writes_never_swallow_a_failure {world : Type}
    (remote : world → call → except json * world) (w : world)
    (plural object_name : string) (create_body : CreateBody) (patch_body : PatchBody)
    (p : prog response) (e : exn)
    (Hendpoint : p ∈ mutating_endpoints plural object_name create_body patch_body)
    (Hraised : Raised e ∈ replies_of remote p w) :
  ∃ detail : string,
    result_of remote p w = HTTPException (status_for e) detail.
Proof.
  revert Hraised.
  apply mutating_endpoints_cases in Hendpoint
    as [-> | [-> | [-> | [-> | [-> | [-> | ->]]]]]];
    unfold_handlers;
    try (destruct (decide (plural ∉ RESOURCES));
         [cbn; intros Hin; by apply elem_of_nil in Hin|]);
    try (generalize (PyStr.capitalize plural); intros label);
    failure_cases remote; local_exceptions; intros Hin; in_replies;
    cbn; eauto.
Qed.

Lemma writes_never_swallow_a_failure_witness :
  delete_subnet "s1"
    ∈ mutating_endpoints "subnets" "s1"
        {| name := "s1"; namespace := None; spec := ∅ |} {| patch_spec := ∅ |} ∧
  Raised (Exception "connection refused")
    ∈ replies_of (constant_remote (Raised (Exception "connection refused")))
        (delete_subnet "s1") tt ∧
  ∃ detail : string,
    result_of (constant_remote (Raised (Exception "connection refused")))
      (delete_subnet "s1") tt
    = HTTPException 500 detail.
Proof.
  assert (Hendpoint :
    delete_subnet "s1"
      ∈ mutating_endpoints "subnets" "s1"
          {| name := "s1"; namespace := None; spec := ∅ |} {| patch_spec := ∅ |}).
  { unfold mutating_endpoints. apply elem_of_cons. right.
    apply elem_of_app. right. cbn. apply elem_of_cons. right. apply list_elem_of_here. }
  assert (Hraised :
    Raised (Exception "connection refused")
      ∈ replies_of (constant_remote (Raised (Exception "connection refused")))
          (delete_subnet "s1") tt).
  { vm_compute. apply list_elem_of_here. }
  split; [exact Hendpoint|]. split; [exact Hraised|].
  exact (writes_never_swallow_a_failure _ tt "subnets" "s1" _ _ _ _ Hendpoint Hraised).
Defined.

(** X4: what create and patch return on success is the document the
    remote returned for the write, unchanged: whenever one of them
    returns a document, the last reply of the remote is that document. *)
Theorem write_reply_returned_unchanged {world : Type}
    (remote : world → call → except json * world) (w : world)
    (plural object_name : string) (create_body : CreateBody) (patch_body : PatchBody)
    (p : prog response) (body : json)
    (Hendpoint : p ∈ (create_resource plural create_body
                      :: (patch_endpoints plural object_name patch_body).*2)%list)
    (Hreturned : result_of remote p w = Return body) :
  ∃ c : call,
    last (calls_of remote p w) = Some (c, Value body) ∧
    verb_of c ∈ [v_create; v_patch] ∧
    call_plural c = plural.
Proof.
  revert Hreturned.
  assert (Hcases : p = create_resource plural create_body ∨
                   p = patch_resource plural object_name patch_body ∨
                   p = patch_subnet object_name patch_body ∧ plural = "subnets" ∨
                   p = patch_vpc_nat_gateway object_name patch_body
                   ∧ plural = "vpc-nat-gateways").
  { apply elem_of_cons in Hendpoint as [-> | Hin]; [auto|].
    unfold patch_endpoints in Hin.
    apply list_elem_of_fmap in Hin as ([label q] & -> & Hin); cbn.
    apply elem_of_cons in Hin as [[= -> ->] | Hin]; [auto|].
    apply elem_of_app in Hin as [Hin | Hin]; case_decide;
      try (by apply elem_of_nil in Hin);
      apply list_elem_of_singleton in Hin as [= -> ->]; auto. }
  destruct Hcases as [-> | [-> | [[-> ->] | [-> ->]]]];
    unfold_handlers;
    try (destruct (decide (plural ∉ RESOURCES)); [unfold result_of; cbn; discriminate|]);
    try (generalize (PyStr.capitalize plural); intros label);
    failure_cases remote; local_exceptions; try discriminate;
    intros [= <-]; eexists; (split; [reflexivity|]); cbn;
    (split; [|reflexivity]); rewrite !elem_of_cons; auto.
Qed.

Lemma write_reply_returned_unchanged_witness :
  patch_resource "vpcs" "v1" {| patch_spec := ∅ |}
    ∈ (create_resource "vpcs" {| name := "v1"; namespace := None; spec := ∅ |}
       :: (patch_endpoints "vpcs" "v1" {| patch_spec := ∅ |}).*2)%list ∧
  result_of (constant_remote (Value (JDict {["spec" := JDict ∅]})))
      (patch_resource "vpcs" "v1" {| patch_spec := ∅ |}) tt
    = Return (JDict {["spec" := JDict ∅]}) ∧
  ∃ c : call,
    last (calls_of (constant_remote (Value (JDict {["spec" := JDict ∅]})))
            (patch_resource "vpcs" "v1" {| patch_spec := ∅ |}) tt)
      = Some (c, Value (JDict {["spec" := JDict ∅]})) ∧
    verb_of c ∈ [v_create; v_patch] ∧
    call_plural c = "vpcs".
Proof.
  assert (Hendpoint :
    patch_resource "vpcs" "v1" {| patch_spec := ∅ |}
      ∈ (create_resource "vpcs" {| name := "v1"; namespace := None; spec := ∅ |}
         :: (patch_endpoints "vpcs" "v1" {| patch_spec := ∅ |}).*2)%list).
  { apply elem_of_cons. right. apply list_elem_of_here. }
  assert (Hreturned :
    result_of (constant_remote (Value (JDict {["spec" := JDict ∅]})))
        (patch_resource "vpcs" "v1" {| patch_spec := ∅ |}) tt
      = Return (JDict {["spec" := JDict ∅]})).
  { vm_compute. reflexivity. }
  split; [exact Hendpoint|]. split; [exact Hreturned|].
  exact (write_reply_returned_unchanged _ tt "vpcs" "v1" _ _ _ _ Hendpoint Hreturned).
Defined.

(** ** Patch and delete, step by step *)

Lemma patch_endpoints_cases (plural object_name : string) (patch_body : PatchBody)
    (label : string) (p : prog response) :
  (label, p) ∈ patch_endpoints plural object_name patch_body →
  (label = PyStr.capitalize plural ∧ p = patch_resource plural object_name patch_body) ∨
  (plural = "subnets" ∧ label = "Subnet" ∧ p = patch_subnet object_name patch_body) ∨
  (plural = "vpc-nat-gateways" ∧ label = "VPC NAT Gateway" ∧
   p = patch_vpc_nat_gateway object_name patch_body).
Proof.
  unfold patch_endpoints. intros Hin.
  apply elem_of_cons in Hin as [[= -> ->] | Hin]; [auto|].
  apply elem_of_app in Hin as [Hin | Hin]; case_decide;
    try (by apply elem_of_nil in Hin);
    apply list_elem_of_singleton in Hin as [= -> ->]; auto.
Qed.

Lemma delete_endpoints_cases (plural object_name : string)
    (label : string) (p : prog response) :
  (label, p) ∈ delete_endpoints plural object_name →
  (label = PyStr.capitalize plural ∧ p = delete_resource plural object_name) ∨
  (plural = "subnets" ∧ label = "Subnet" ∧ p = delete_subnet object_name) ∨
  (plural = "vpc-nat-gateways" ∧ label = "VPC NAT Gateway" ∧
   p = delete_vpc_nat_gateway object_name).
Proof.
  unfold delete_endpoints. intros Hin.
  apply elem_of_cons in Hin as [[= -> ->] | Hin]; [auto|].
  apply elem_of_app in Hin as [Hin | Hin]; case_decide;
    try (by apply elem_of_nil in Hin);
    apply list_elem_of_singleton in Hin as [= -> ->]; auto.
Qed.

(** The calls and the result of a patch endpoint once the read returned
    an object whose spec is a mapping. *)
Lemma patch_endpoint_after_read {world : Type}
    (remote : world → call → except json * world) (w w1 : world)
    (plural object_name : string) (patch_body : PatchBody)
    (current current_spec : gmap string json)
    (label : string) (p : prog response) :
  plural ∈ RESOURCES →
  (label, p) ∈ patch_endpoints plural object_name patch_body →
  remote w (get_cluster_custom_object "kubeovn.io" "v1" plural object_name)
    = (Value (JDict current), w1) →
  current !! "spec" = Some (JDict current_spec) →
  ∃ reply : except json,
    calls_of remote p w =
      [(get_cluster_custom_object "kubeovn.io" "v1" plural object_name,
        Value (JDict current));
       (patch_cluster_custom_object "kubeovn.io" "v1" plural object_name
          (JDict (<["spec" := JDict (Py.dict_update current_spec (patch_spec patch_body))]>
                    current)),
        reply)].
Proof.
  intros Hreg Hendpoint Hread Hspec.
  apply patch_endpoints_cases in Hendpoint as [[-> ->] | [(-> & -> & ->) | (-> & -> & ->)]];
    unfold_handlers; rewrite ?(registered_guard _ _ _ Hreg);
    unfold calls_of; cbn; unfold GROUP, VERSION in *; rewrite Hread; cbn;
    rewrite Hspec; cbn;
    destruct (remote w1 _) as [[v | [status text | text]] w2]; eexists; reflexivity.
Qed.

(** X5: a patch endpoint submits nothing when the object it read has no
    spec, or a spec that is not a mapping: the read is its only call, and
    it raises 500 with the text of the [KeyError] or of the
    [AttributeError]. *)
Theorem patch_without_mapping_spec_submits_nothing {world : Type}
    (remote : world → call → except json * world) (w w1 : world)
    (plural object_name : string) (patch_body : PatchBody)
    (current : gmap string json) (label : string) (p : prog response)
    (Hregistered : plural ∈ RESOURCES)
    (Hendpoint : (label, p) ∈ patch_endpoints plural object_name patch_body)
    (Hread : remote w (get_cluster_custom_object "kubeovn.io" "v1" plural object_name)
             = (Value (JDict current), w1))
    (Hspec : ∀ current_spec, current !! "spec" ≠ Some (JDict current_spec)) :
  calls_of remote p w =
    [(get_cluster_custom_object "kubeovn.io" "v1" plural object_name,
      Value (JDict current))] ∧
  result_of remote p w =
    HTTPException 500
      match current !! "spec" with
      | None => "'spec'"
      | Some v => "'" +:+ Py.type_name v +:+ "' object has no attribute 'update'"
      end.
Proof.
  apply patch_endpoints_cases in Hendpoint as [[-> ->] | [(-> & -> & ->) | (-> & -> & ->)]];
    unfold_handlers; rewrite ?(registered_guard _ _ _ Hregistered);
    unfold calls_of, result_of; cbn; unfold GROUP, VERSION in *; rewrite Hread; cbn;
    (destruct (current !! "spec") as [v|] eqn:Hv; cbn; [|done]);
    (destruct v; cbn; try done); by destruct (Hspec d).
Qed.

Lemma patch_without_mapping_spec_submits_nothing_witness :
  "vpcs" ∈ RESOURCES ∧
  ("Vpcs", patch_resource "vpcs" "v1" {| patch_spec := {["a" := JInt 2]} |})
    ∈ patch_endpoints "vpcs" "v1" {| patch_spec := {["a" := JInt 2]} |} ∧
  constant_remote (Value (JDict {["metadata" := JDict ∅]})) tt
      (get_cluster_custom_object "kubeovn.io" "v1" "vpcs" "v1")
    = (Value (JDict {["metadata" := JDict ∅]}), tt) ∧
  (∀ current_spec,
     ({["metadata" := JDict ∅]} : gmap string json) !! "spec" ≠ Some (JDict current_spec)) ∧
  calls_of (constant_remote (Value (JDict {["metadata" := JDict ∅]})))
      (patch_resource "vpcs" "v1" {| patch_spec := {["a" := JInt 2]} |}) tt =
    [(get_cluster_custom_object "kubeovn.io" "v1" "vpcs" "v1",
      Value (JDict {["metadata" := JDict ∅]}))] ∧
  result_of (constant_remote (Value (JDict {["metadata" := JDict ∅]})))
      (patch_resource "vpcs" "v1" {| patch_spec := {["a" := JInt 2]} |}) tt =
    HTTPException 500 "'spec'".
Proof.
  assert (Hreg : "vpcs" ∈ RESOURCES) by by_evaluation.
  assert (Hendpoint :
    ("Vpcs", patch_resource "vpcs" "v1" {| patch_spec := {["a" := JInt 2]} |})
      ∈ patch_endpoints "vpcs" "v1" {| patch_spec := {["a" := JInt 2]} |}).
  { apply list_elem_of_here. }
  assert (Hspec : ∀ current_spec,
    ({["metadata" := JDict ∅]} : gmap string json) !! "spec" ≠ Some (JDict current_spec)).
  { intros current_spec. vm_compute. discriminate. }
  split; [exact Hreg|]. split; [exact Hendpoint|]. split; [reflexivity|].
  split; [exact Hspec|].
  exact (patch_without_mapping_spec_submits_nothing
           (constant_remote (Value (JDict {["metadata" := JDict ∅]}))) tt tt
           "vpcs" "v1" {| patch_spec := {["a" := JInt 2]} |}
           {["metadata" := JDict ∅]} "Vpcs" _ Hreg Hendpoint eq_refl Hspec).
Defined.

(** X6: a patch with an empty spec submits the object exactly as it was
    read. *)
Theorem empty_patch_resubmits_the_object {world : Type}
    (remote : world → call → except json * world) (w w1 : world)
    (plural object_name : string) (patch_body : PatchBody)
    (current current_spec : gmap string json) (label : string) (p : prog response)
    (Hregistered : plural ∈ RESOURCES)
    (Hendpoint : (label, p) ∈ patch_endpoints plural object_name patch_body)
    (Hread : remote w (get_cluster_custom_object "kubeovn.io" "v1" plural object_name)
             = (Value (JDict current), w1))
    (Hspec : current !! "spec" = Some (JDict current_spec))
    (Hempty : patch_spec patch_body = ∅) :
  ∃ reply : except json,
    calls_of remote p w =
      [(get_cluster_custom_object "kubeovn.io" "v1" plural object_name,
        Value (JDict current));
       (patch_cluster_custom_object "kubeovn.io" "v1" plural object_name (JDict current),
        reply)].
Proof.
  destruct (patch_endpoint_after_read remote w w1 plural object_name patch_body
              current current_spec label p Hregistered Hendpoint Hread Hspec)
    as [reply Hcalls].
  exists reply. rewrite Hcalls, Hempty, dict_update_union, (left_id_L ∅ (∪)).
  by rewrite (insert_id _ _ _ Hspec).
Qed.

Lemma empty_patch_resubmits_the_object_witness :
  "subnets" ∈ RESOURCES ∧
  ("Subnet", patch_subnet "s1" {| patch_spec := ∅ |})
    ∈ patch_endpoints "subnets" "s1" {| patch_spec := ∅ |} ∧
  constant_remote (Value (JDict {["spec" := JDict {["a" := JInt 1]}]})) tt
      (get_cluster_custom_object "kubeovn.io" "v1" "subnets" "s1")
    = (Value (JDict {["spec" := JDict {["a" := JInt 1]}]}), tt) ∧
  ({["spec" := JDict {["a" := JInt 1]}]} : gmap string json) !! "spec"
    = Some (JDict {["a" := JInt 1]}) ∧
  patch_spec {| patch_spec := ∅ |} = ∅ ∧
  ∃ reply : except json,
    calls_of (constant_remote (Value (JDict {["spec" := JDict {["a" := JInt 1]}]})))
        (patch_subnet "s1" {| patch_spec := ∅ |}) tt =
      [(get_cluster_custom_object "kubeovn.io" "v1" "subnets" "s1",
        Value (JDict {["spec" := JDict {["a" := JInt 1]}]}));
       (patch_cluster_custom_object "kubeovn.io" "v1" "subnets" "s1"
          (JDict {["spec" := JDict {["a" := JInt 1]}]}),
        reply)].
Proof.
  assert (Hreg : "subnets" ∈ RESOURCES) by by_evaluation.
  assert (Hendpoint :
    ("Subnet", patch_subnet "s1" {| patch_spec := ∅ |})
      ∈ patch_endpoints "subnets" "s1" {| patch_spec := ∅ |}).
  { apply elem_of_cons. right. apply list_elem_of_here. }
  split; [exact Hreg|]. split; [exact Hendpoint|]. split; [reflexivity|].
  split; [reflexivity|]. split; [reflexivity|].
  exact (empty_patch_resubmits_the_object
           (constant_remote (Value (JDict {["spec" := JDict {["a" := JInt 1]}]}))) tt tt
           "subnets" "s1" {| patch_spec := ∅ |}
           {["spec" := JDict {["a" := JInt 1]}]} {["a" := JInt 1]}
           "Subnet" _ Hreg Hendpoint eq_refl eq_refl eq_refl).
Defined.

(** X7: patches compose.  If the object read is one whose spec an
    earlier patch [first] has already been merged into, the object
    submitted carries, key by key, the value of the present patch, else
    the value of the earlier patch, else the original value: two patches
    in a row submit what one patch with the later spec laid over the
    earlier one submits. *)
Theorem successive_patches_compose {world : Type}
    (remote : world → call → except json * world) (w w1 : world)
    (plural object_name : string) (patch_body : PatchBody)
    (original original_spec first : gmap string json)
    (label : string) (p : prog response)
    (Hregistered : plural ∈ RESOURCES)
    (Hendpoint : (label, p) ∈ patch_endpoints plural object_name patch_body)
    (Hread : remote w (get_cluster_custom_object "kubeovn.io" "v1" plural object_name)
             = (Value (JDict (<["spec" := JDict (Py.dict_update original_spec first)]>
                                original)), w1)) :
  ∃ (merged : gmap string json) (reply : except json),
    (∀ key : string,
       merged !! key =
         match patch_spec patch_body !! key with
         | Some v => Some v
         | None =>
             match first !! key with
             | Some v => Some v
             | None => original_spec !! key
             end
         end) ∧
    merged = Py.dict_update original_spec (Py.dict_update first (patch_spec patch_body)) ∧
    calls_of remote p w =
      [(get_cluster_custom_object "kubeovn.io" "v1" plural object_name,
        Value (JDict (<["spec" := JDict (Py.dict_update original_spec first)]> original)));
       (patch_cluster_custom_object "kubeovn.io" "v1" plural object_name
          (JDict (<["spec" := JDict merged]> original)),
        reply)].
Proof.
  destruct (patch_endpoint_after_read remote w w1 plural object_name patch_body
              (<["spec" := JDict (Py.dict_update original_spec first)]> original)
              (Py.dict_update original_spec first) label p
              Hregistered Hendpoint Hread (lookup_insert_eq _ _ _))
    as [reply Hcalls].
  exists (Py.dict_update (Py.dict_update original_spec first) (patch_spec patch_body)), reply.
  split; [|split].
  - intros key. rewrite !dict_update_lookup. done.
  - rewrite !dict_update_union. by rewrite (assoc_L (∪)).
  - rewrite Hcalls. by rewrite insert_insert_eq.
Qed.

Lemma successive_patches_compose_witness :
  "subnets" ∈ RESOURCES ∧
  ("Subnets", patch_resource "subnets" "s1" {| patch_spec := {["b" := JInt 5]} |})
    ∈ patch_endpoints "subnets" "s1" {| patch_spec := {["b" := JInt 5]} |} ∧
  constant_remote
      (Value (JDict (<["spec" := JDict (Py.dict_update {["a" := JInt 1; "b" := JInt 3]}
                                                        {["a" := JInt 2]})]>
                       {["spec" := JDict {["a" := JInt 1; "b" := JInt 3]}]}))) tt
      (get_cluster_custom_object "kubeovn.io" "v1" "subnets" "s1")
    = (Value (JDict (<["spec" := JDict (Py.dict_update {["a" := JInt 1; "b" := JInt 3]}
                                                        {["a" := JInt 2]})]>
                       {["spec" := JDict {["a" := JInt 1; "b" := JInt 3]}]})), tt) ∧
  ∃ (merged : gmap string json) (reply : except json),
    merged = {["a" := JInt 2; "b" := JInt 5]} ∧
    last (calls_of
      (constant_remote
        (Value (JDict (<["spec" := JDict (Py.dict_update {["a" := JInt 1; "b" := JInt 3]}
                                                          {["a" := JInt 2]})]>
                         {["spec" := JDict {["a" := JInt 1; "b" := JInt 3]}]}))))
      (patch_resource "subnets" "s1" {| patch_spec := {["b" := JInt 5]} |}) tt) =
      Some (patch_cluster_custom_object "kubeovn.io" "v1" "subnets" "s1"
              (JDict (<["spec" := JDict merged]>
                        {["spec" := JDict {["a" := JInt 1; "b" := JInt 3]}]})),
            reply).
Proof.
  assert (Hreg : "subnets" ∈ RESOURCES) by by_evaluation.
  assert (Hendpoint :
    ("Subnets", patch_resource "subnets" "s1" {| patch_spec := {["b" := JInt 5]} |})
      ∈ patch_endpoints "subnets" "s1" {| patch_spec := {["b" := JInt 5]} |}).
  { apply list_elem_of_here. }
  split; [exact Hreg|]. split; [exact Hendpoint|]. split; [reflexivity|].
  destruct (successive_patches_compose
              (constant_remote
                (Value (JDict (<["spec" := JDict (Py.dict_update
                                                    {["a" := JInt 1; "b" := JInt 3]}
                                                    {["a" := JInt 2]})]>
                                 {["spec" := JDict {["a" := JInt 1; "b" := JInt 3]}]}))))
              tt tt "subnets" "s1" {| patch_spec := {["b" := JInt 5]} |}
              {["spec" := JDict {["a" := JInt 1; "b" := JInt 3]}]}
              {["a" := JInt 1; "b" := JInt 3]} {["a" := JInt 2]}
              "Subnets" _ Hreg Hendpoint eq_refl)
    as (merged & reply & _ & Hmerged & Hcalls).
  exists merged, reply. split.
  - rewrite Hmerged. vm_compute. reflexivity.
  - rewrite Hcalls. reflexivity.
Defined.

(** X8: a delete endpoint reads the object before it deletes it.  When
    the read raises, the delete call is never made.  When the read
    returns, the delete call follows, for the same plural and name; and
    when that returns too, the response is the confirmation with the
    endpoint's label and the name, whatever the remote returned. *)
Theorem delete_reads_before_it_deletes {world : Type}
    (remote : world → call → except json * world) (w : world)
    (plural object_name : string) (label : string) (p : prog response)
    (Hregistered : plural ∈ RESOURCES)
    (Hendpoint : (label, p) ∈ delete_endpoints plural object_name) :
  match remote w (get_cluster_custom_object "kubeovn.io" "v1" plural object_name) with
  | (Raised e, _) =>
      calls_of remote p w =
        [(get_cluster_custom_object "kubeovn.io" "v1" plural object_name, Raised e)]
  | (Value v, w1) =>
      match remote w1 (delete_cluster_custom_object "kubeovn.io" "v1" plural object_name) with
      | (reply, _) =>
          calls_of remote p w =
            [(get_cluster_custom_object "kubeovn.io" "v1" plural object_name, Value v);
             (delete_cluster_custom_object "kubeovn.io" "v1" plural object_name, reply)] ∧
          match reply with
          | Value _ =>
              result_of remote p w =
                Return (JDict {["message" :=
                  JStr (label +:+ " '" +:+ object_name +:+ "' deleted successfully")]})
          | Raised e => ∃ detail, result_of remote p w = HTTPException (status_for e) detail
          end
      end
  end.
Proof.
  apply delete_endpoints_cases in Hendpoint as [[-> ->] | [(-> & -> & ->) | (-> & -> & ->)]];
    unfold_handlers; rewrite ?(registered_guard _ _ _ Hregistered);
    try (generalize (PyStr.capitalize plural); intros label);
    unfold calls_of, result_of; cbn; unfold GROUP, VERSION;
    (destruct (remote w _) as [[v | [status text | text]] w1]; cbn;
     [|try destruct (Z.eqb_spec status 404); reflexivity..]);
    destruct (remote w1 _) as [[v2 | [status text | text]] w2]; cbn;
    try destruct (Z.eqb_spec status 404); subst; cbn; eauto.
Qed.

Lemma delete_reads_before_it_deletes_witness :
  "subnets" ∈ RESOURCES ∧
  ("Subnet", delete_subnet "s1") ∈ delete_endpoints "subnets" "s1" ∧
  calls_of absent_remote (delete_subnet "s1") tt =
    [(get_cluster_custom_object "kubeovn.io" "v1" "subnets" "s1",
      Raised (ApiException 404 "(404) Reason: Not Found"))].
Proof.
  assert (Hreg : "subnets" ∈ RESOURCES) by by_evaluation.
  assert (Hendpoint : ("Subnet", delete_subnet "s1") ∈ delete_endpoints "subnets" "s1").
  { apply elem_of_cons. right. apply list_elem_of_here. }
  split; [exact Hreg|]. split; [exact Hendpoint|].
  exact (delete_reads_before_it_deletes absent_remote tt "subnets" "s1"
           "Subnet" _ Hreg Hendpoint).
Defined.

(** ** Which requests are served, and what they may call *)

Lemma param_ok_subnets : param_ok "subnets" = true.
Proof. reflexivity. Qed.

Lemma param_ok_vpc_nat_gateways : param_ok "vpc-nat-gateways" = true.
Proof. reflexivity. Qed.

Lemma app_of_served (req : request) (p : prog response) :
  serves req p → app req = Some p.
Proof.
  destruct 1 as [r Hr | r b Hr | n b Hn | n b Hn | n Hn | n Hn
                 | r n b Hr Hn H1 H2 | r n Hr Hn H1 H2];
    unfold app, route; cbn; rewrite ?Hr, ?Hn; cbn;
    repeat (case_decide; try congruence; cbn; rewrite ?Hr, ?Hn; cbn);
    reflexivity.
Qed.

Lemma served_of_app (req : request) (p : prog response) :
  app req = Some p → serves req p.
Proof.
  unfold app, route.
  destruct req as [path | path b | path b | path];
    destruct path as [|a [|r [|n [|x rest]]]]; cbn;
    repeat first
      [ discriminate
      | case_decide; subst; cbn
      | match goal with
        | |- context [param_ok ?s] =>
            let E := fresh "Hok" in destruct (param_ok s) eqn:E; cbn
        end ];
    intros [= <-]; constructor; congruence.
Qed.

(** X9: among the GET, POST, PATCH and DELETE requests under /api, the
    handlers of this file serve exactly these: GET and POST on
    /api/<plural>, and PATCH and DELETE on /api/<plural>/<name>, where
    every path parameter is one non-empty segment.  PATCH and DELETE go to
    the handler of "subnets" or "vpc-nat-gateways" for those two plurals
    and to the generic handler for every other one; no handler of this
    file takes any other such request. *)
Theorem app_serves_exactly (req : request) (p : prog response) (rest : list string)
    (Hunder_api : path_of req = "api" :: rest) :
  app req = Some p ↔ serves req p.
Proof. split; [apply served_of_app | apply app_of_served]. Qed.

Lemma app_serves_exactly_witness :
  path_of (Patch ["api"; "vpcs"; "v1"] {| patch_spec := ∅ |}) = "api" :: ["vpcs"; "v1"] ∧
  app (Patch ["api"; "vpcs"; "v1"] {| patch_spec := ∅ |})
    = Some (patch_resource "vpcs" "v1" {| patch_spec := ∅ |}) ∧
  ¬ serves (Get ["api"; "vpcs"; "v1"]) (get_resources "vpcs").
Proof.
  split; [reflexivity|]. split.
  - apply (proj2 (app_serves_exactly (Patch ["api"; "vpcs"; "v1"] {| patch_spec := ∅ |})
                    (patch_resource "vpcs" "v1" {| patch_spec := ∅ |})
                    ["vpcs"; "v1"] eq_refl)).
    constructor; (reflexivity || discriminate).
  - intros Hserves.
    apply (proj2 (app_serves_exactly (Get ["api"; "vpcs"; "v1"]) (get_resources "vpcs")
                    ["vpcs"; "v1"] eq_refl)) in Hserves.
    discriminate Hserves.
Defined.

Ltac calls_listed :=
  repeat match goal with
  | H : _ ∈ _ :: _ |- _ => apply elem_of_cons in H as [-> | H]
  | H : _ ∈ [] |- _ => by apply elem_of_nil in H
  end.

(** X10: what a served request may call.  A GET makes no call or one
    list call; a POST no call or one create call; a PATCH at most a read
    followed by a patch call; a DELETE at most a read followed by a delete
    call.  Every call is made in group "kubeovn.io", version "v1", for the
    plural in the request's path and, where the call names an object, for
    the name in the path. *)
Theorem served_request_calls {world : Type}
    (remote : world → call → except json * world) (w : world)
    (req : request) (p : prog response)
    (Hserved : app req = Some p) :
  (verb_of <$> (calls_of remote p w).*1) ∈ verbs_allowed (method_of req) ∧
  ∀ c : call, c ∈ (calls_of remote p w).*1 →
    call_group c = "kubeovn.io" ∧
    call_version c = "v1" ∧
    path_of req !! 1%nat = Some (call_plural c) ∧
    (∀ object_name, call_name c = Some object_name →
                    path_of req !! 2%nat = Some object_name).
Proof.
  apply served_of_app in Hserved.
  destruct Hserved as [r Hr | r b Hr | n b Hn | n b Hn | n Hn | n Hn
                       | r n b Hr Hn H1 H2 | r n Hr Hn H1 H2];
    unfold get_resources, try_except_all; unfold_handlers;
    try (destruct (decide (r ∉ RESOURCES)));
    try (generalize (PyStr.capitalize r); intros label);
    unfold calls_of; cbn;
    repeat match goal with
    | |- context [remote ?w0 ?c] =>
        destruct (remote w0 c) as [[? | [? ? | ?]] ?]; cbn
    | |- context [Py.getitem ?v ?k] => destruct (Py.getitem v k) as [? | [? ? | ?]]; cbn
    | |- context [Py.update ?v ?o] => destruct (Py.update v o) as [? | [? ? | ?]]; cbn
    end;
    (split; [rewrite !elem_of_cons; auto 6|]);
    intros c Hc; calls_listed; cbn; repeat split; intros ? [= <-]; reflexivity.
Qed.

Lemma served_request_calls_witness :
  app (Delete ["api"; "vpcs"; "v1"]) = Some (delete_resource "vpcs" "v1") ∧
  (verb_of <$> (calls_of (constant_remote (Value JNull))
                  (delete_resource "vpcs" "v1") tt).*1) = [v_get; v_delete] ∧
  [v_get; v_delete] ∈ verbs_allowed DELETE ∧
  ∀ c : call,
    c ∈ (calls_of (constant_remote (Value JNull)) (delete_resource "vpcs" "v1") tt).*1 →
    call_group c = "kubeovn.io" ∧
    call_version c = "v1" ∧
    ["api"; "vpcs"; "v1"] !! 1%nat = Some (call_plural c) ∧
    (∀ object_name, call_name c = Some object_name →
                    ["api"; "vpcs"; "v1"] !! 2%nat = Some object_name).
Proof.
  assert (Hserved : app (Delete ["api"; "vpcs"; "v1"]) = Some (delete_resource "vpcs" "v1")).
  { reflexivity. }
  destruct (served_request_calls (constant_remote (Value JNull)) tt _ _ Hserved)
    as [Hverbs Hcalls].
  split; [exact Hserved|]. split; [reflexivity|]. split; [exact Hverbs|]. exact Hcalls.
Defined.

(** ** Invariants of the watch relay *)

Module RelayInvariants.
Import Relay RelayFacts.

Lemma RESOURCES_NoDup : NoDup RESOURCES.
Proof. apply (bool_decide_unpack _). vm_compute. exact I.
Qed.

Lemma message_of_form (resource : string) (event message : json) :
  message_of resource event = Value message →
  ∃ ty object : json,
    message = JDict {["resource" := JStr resource; "type" := ty; "object" := object]}.
Proof.
  destruct event as [| | | | | |d]; try discriminate.
  unfold message_of. cbn.
  destruct (d !! "type") as [ty|]; [|discriminate].
  destruct (d !! "object") as [object|]; [|discriminate].
  cbn. rewrite insert_empty. intros [= <-]. by exists ty, object.
Qed.

(** The subscriptions opened from a streaming state are the next kinds,
    in order. *)
Lemma steps_streams (answers : list answer) (resource : string) (remaining : list string) :
  ∃ k : nat, (k ≤ List.length remaining)%nat ∧
    omap is_stream (steps (Streaming resource remaining) answers).2 = take k remaining.
Proof.
  revert resource remaining.
  induction answers as [|a answers IH]; intros resource remaining.
  - exists 0%nat. split; [lia|]. by rewrite take_0.
  - cbn [steps].
    destruct (step (Streaming resource remaining) a) as [st1 out1] eqn:Hstep.
    destruct (steps st1 answers) as [st2 out2] eqn:Hsteps. cbn.
    rewrite omap_app.
    assert (Hquiet : ∀ st out,
      (st = Closed ∨ st = Streaming resource remaining) → omap is_stream out = [] →
      (st1, out1) = (st, out) →
      ∃ k : nat, (k ≤ List.length remaining)%nat ∧
        (omap is_stream out1 ++ omap is_stream out2)%list = take k remaining).
    { intros st out Hst Hout [= -> ->]. rewrite Hout. cbn.
      destruct Hst as [-> | ->].
      - rewrite steps_closed in Hsteps. injection Hsteps as _ <-.
        exists 0%nat. split; [lia|]. by rewrite take_0.
      - destruct (IH resource remaining) as (k & Hk & Heq).
        rewrite Hsteps in Heq. by exists k. }
    cbn in Hstep. destruct a as [event send | | text].
    + destruct (message_of resource event); [destruct send|];
        injection Hstep as <- <-;
        (eapply Hquiet; [| |reflexivity]; [auto|reflexivity]).
    + destruct remaining as [|resource' remaining'].
      * injection Hstep as <- <-.
        eapply Hquiet; [| |reflexivity]; [auto|reflexivity].
      * injection Hstep as <- <-. cbn.
        destruct (IH resource' remaining') as (k & Hk & Heq).
        rewrite Hsteps in Heq. cbn in Heq. exists (S k). split; [cbn; lia|].
        cbn. by rewrite Heq.
    + injection Hstep as <- <-.
      eapply Hquiet; [| |reflexivity]; [auto|reflexivity].
Qed.

(** X11: whatever [accept], the streams and the socket do, the
    subscriptions the relay opens are the first [n] kinds of the registry,
    in registry order, for some [n] up to 20: no kind is skipped, none is
    subscribed twice, and a kind is subscribed only after all kinds before
    it.  No kind at all is subscribed exactly when [accept] raised. *)
Theorem relay_subscribes_in_registry_order
    (accepted : option string) (answers : list answer) :
  ∃ n : nat, (n ≤ 20)%nat ∧
    (n = 0%nat ↔ is_Some accepted) ∧
    omap is_stream (websocket_endpoint accepted answers).2 = take n RESOURCES ∧
    NoDup (omap is_stream (websocket_endpoint accepted answers).2).
Proof.
  destruct accepted as [text|].
  { exists 0%nat. cbn. split; [lia|]. split; [by split; eauto|].
    split; [done | apply NoDup_nil_2]. }
  rewrite endpoint_accepted.
  destruct (steps_streams answers "vpcs" (List.tl RESOURCES)) as (k & Hk & Heq).
  destruct (steps _ answers) as [st out]. cbn in Heq, Hk. cbn [snd].
  exists (S k). split; [lia|].
  split; [split; [discriminate | by intros [? ?]]|].
  assert (Htake : (omap is_stream (ws_accept :: watch_stream GROUP VERSION "vpcs" :: out))
                  = take (S k) RESOURCES).
  { cbn. f_equal. exact Heq. }
  split; [exact Htake|].
  rewrite Htake. exact (sublist_NoDup _ _ RESOURCES_NoDup (sublist_take _ _)).
Qed.

Ltac not_in_literal :=
  unfold on_error; cbn;
  let Hin := fresh "Hin" in
  intros Hin;
  repeat (apply elem_of_cons in Hin as [Hin | Hin]; [discriminate|]);
  by apply elem_of_nil in Hin.

(** One turn of the loop either ends the handler, with [w.stop()] as its
    last action and nowhere before, or leaves it streaming without having
    stopped the watch. *)
Lemma step_stop (resource : string) (remaining : list string) (a : answer) :
  ((step (Streaming resource remaining) a).1 = Closed ∧
   ∃ out0, (step (Streaming resource remaining) a).2 = (out0 ++ [watch_stop])%list ∧
           watch_stop ∉ out0)
  ∨ ((∃ resource' remaining',
        (step (Streaming resource remaining) a).1 = Streaming resource' remaining') ∧
     watch_stop ∉ (step (Streaming resource remaining) a).2).
Proof.
  cbn. destruct a as [event send | | text].
  - destruct (message_of resource event) as [message | e]; [destruct send as [text|]|]; cbn.
    + left. split; [done|].
      exists [ws_send_json message; print ("WebSocket error: " +:+ text)].
      split; [done | not_in_literal].
    + right. split; [eauto | not_in_literal].
    + left. split; [done|]. exists [print ("WebSocket error: " +:+ text_of e)].
      split; [done | not_in_literal].
  - destruct remaining as [|resource' remaining']; cbn.
    + left. split; [done|]. exists []. split; [done | not_in_literal].
    + right. split; [eauto | not_in_literal].
  - left. split; [done|]. exists [print ("WebSocket error: " +:+ text)].
    split; [done | not_in_literal].
Qed.

Lemma steps_stop (answers : list answer) (resource : string) (remaining : list string) :
  ((steps (Streaming resource remaining) answers).1 = Closed ∧
   ∃ out0, (steps (Streaming resource remaining) answers).2 = (out0 ++ [watch_stop])%list ∧
           watch_stop ∉ out0)
  ∨ ((∃ resource' remaining',
        (steps (Streaming resource remaining) answers).1 = Streaming resource' remaining') ∧
     watch_stop ∉ (steps (Streaming resource remaining) answers).2).
Proof.
  revert resource remaining.
  induction answers as [|a answers IH]; intros resource remaining.
  - right. cbn. split; [eauto | apply not_elem_of_nil].
  - cbn [steps].
    destruct (step_stop resource remaining a)
      as [(Hst & out0 & Hout & Hnot) | ((resource' & remaining' & Hst) & Hnot)];
      destruct (step (Streaming resource remaining) a) as [st1 out1]; cbn in *; subst st1.
    + rewrite steps_closed. cbn. left. split; [done|].
      exists out0. by rewrite app_nil_r.
    + destruct (IH resource' remaining')
        as [(Hst & out0 & Hout & Hnot') | (Hst & Hnot')];
        destruct (steps _ answers) as [st2 out2]; cbn in *.
      * left. split; [done|]. exists (out1 ++ out0)%list. subst out2.
        split; [by rewrite app_assoc|]. rewrite elem_of_app. tauto.
      * right. split; [done|]. rewrite elem_of_app. tauto.
Qed.

(** X12: when [accept] returns, [w.stop()] is called exactly when the
    handler has ended, as its last action and once only, and while the
    relay is still streaming the watch has not been stopped.  When
    [accept] raises, the handler ends there: no watch is subscribed or
    stopped and nothing is sent or printed. *)
Theorem relay_stops_the_watch_once_at_the_end
    (accepted : option string) (answers : list answer) :
  match accepted with
  | Some _ => websocket_endpoint accepted answers = (Closed, [ws_accept])
  | None =>
      ((websocket_endpoint None answers).1 = Closed ∧
       ∃ before, (websocket_endpoint None answers).2 = (before ++ [watch_stop])%list ∧
                 watch_stop ∉ before)
      ∨ ((∃ resource remaining,
            (websocket_endpoint None answers).1 = Streaming resource remaining) ∧
         watch_stop ∉ (websocket_endpoint None answers).2)
  end.
Proof.
  destruct accepted as [text|]; [reflexivity|].
  rewrite endpoint_accepted.
  destruct (steps_stop answers "vpcs" (List.tl RESOURCES))
    as [(Hst & out0 & Hout & Hnot) | (Hst & Hnot)];
    destruct (steps _ answers) as [st out]; cbn [fst snd] in *.
  - left. split; [done|].
    exists (ws_accept :: watch_stream GROUP VERSION "vpcs" :: out0). subst out.
    split; [done|]. rewrite !not_elem_of_cons. done.
  - right. split; [done|]. rewrite !not_elem_of_cons. done.
Qed.

(** The messages sent from a streaming state carry the kind being
    streamed or one of the kinds still to come. *)
Lemma steps_messages (answers : list answer) (resource : string) (remaining : list string)
    (message : json) :
  ws_send_json message ∈ (steps (Streaming resource remaining) answers).2 →
  ∃ (resource' : string) (ty object : json),
    resource' ∈ resource :: remaining ∧
    message = JDict {["resource" := JStr resource'; "type" := ty; "object" := object]}.
Proof.
  revert resource remaining.
  induction answers as [|a answers IH]; intros resource remaining; cbn [steps].
  - intros Hin. by apply elem_of_nil in Hin.
  - destruct (step (Streaming resource remaining) a) as [st1 out1] eqn:Hstep.
    destruct (steps st1 answers) as [st2 out2] eqn:Hsteps. cbn [snd].
    rewrite elem_of_app. cbn in Hstep.
    assert (Hclosed : st1 = Closed → ws_send_json message ∉ out2).
    { intros ->. rewrite steps_closed in Hsteps. injection Hsteps as _ <-.
      apply not_elem_of_nil. }
    assert (Hsame : st1 = Streaming resource remaining →
      ws_send_json message ∈ out2 →
      ∃ (resource' : string) (ty object : json),
        resource' ∈ resource :: remaining ∧
        message = JDict {["resource" := JStr resource'; "type" := ty; "object" := object]}).
    { intros -> Hin. apply IH. by rewrite Hsteps. }
    destruct a as [event send | | text].
    + destruct (message_of resource event) as [message' | e] eqn:Hmessage;
        [destruct send as [text|]|]; injection Hstep as <- <-.
      * intros [Hin | Hin]; [|by destruct (Hclosed eq_refl)].
        unfold on_error in Hin. apply elem_of_cons in Hin as [[= ->] | Hin].
        -- destruct (message_of_form _ _ _ Hmessage) as (ty & object & ->).
           exists resource, ty, object. split; [apply list_elem_of_here | done].
        -- exfalso. revert Hin. not_in_literal.
      * intros [Hin | Hin]; [|by apply Hsame].
        apply list_elem_of_singleton in Hin as [= ->].
        destruct (message_of_form _ _ _ Hmessage) as (ty & object & ->).
        exists resource, ty, object. split; [apply list_elem_of_here | done].
      * intros [Hin | Hin]; [|by destruct (Hclosed eq_refl)].
        exfalso. revert Hin. not_in_literal.
    + destruct remaining as [|resource' remaining']; injection Hstep as <- <-.
      * intros [Hin | Hin]; [|by destruct (Hclosed eq_refl)].
        exfalso. revert Hin. not_in_literal.
      * intros [Hin | Hin]; [exfalso; revert Hin; not_in_literal|].
        destruct (IH resource' remaining') as (r & ty & object & Hr & ->).
        { by rewrite Hsteps. }
        exists r, ty, object. split; [by apply elem_of_cons; right | done].
    + injection Hstep as <- <-.
      intros [Hin | Hin]; [|by destruct (Hclosed eq_refl)].
      exfalso. revert Hin. not_in_literal.
Qed.

(** X14: every message the relay sends is a mapping with exactly the keys
    "resource", "type" and "object", and its resource is a plural of the
    registry. *)
Theorem relay_messages_name_a_registered_kind (answers : list answer) (message : json)
    (Hsent : ws_send_json message ∈ (websocket_endpoint None answers).2) :
  ∃ (resource : string) (ty object : json),
    resource ∈ RESOURCES ∧
    message = JDict {["resource" := JStr resource; "type" := ty; "object" := object]}.
Proof.
  revert Hsent. rewrite endpoint_accepted.
  pose proof (steps_messages answers "vpcs" (List.tl RESOURCES) message) as Hsteps.
  destruct (steps _ answers) as [st out]. cbn [snd] in *.
  intros Hin. apply elem_of_cons in Hin as [[=] | Hin].
  apply elem_of_cons in Hin as [[=] | Hin].
  exact (Hsteps Hin).
Qed.

Lemma relay_messages_name_a_registered_kind_witness :
  ws_send_json (JDict {["resource" := JStr "vpcs"; "type" := JStr "ADDED";
                        "object" := JNull]})
    ∈ (websocket_endpoint None
         [Yields (JDict {["type" := JStr "ADDED"; "object" := JNull]}) None]).2 ∧
  ∃ (resource : string) (ty object : json),
    resource ∈ RESOURCES ∧
    JDict {["resource" := JStr "vpcs"; "type" := JStr "ADDED"; "object" := JNull]}
      = JDict {["resource" := JStr resource; "type" := ty; "object" := object]}.
Proof.
  assert (Hsent :
    ws_send_json (JDict {["resource" := JStr "vpcs"; "type" := JStr "ADDED";
                          "object" := JNull]})
      ∈ (websocket_endpoint None
           [Yields (JDict {["type" := JStr "ADDED"; "object" := JNull]}) None]).2).
  { vm_compute. apply elem_of_cons. right. apply elem_of_cons. right.
    apply list_elem_of_here. }
  split; [exact Hsent|].
  exact (relay_messages_name_a_registered_kind _ _ Hsent).
Defined.

(** While no stream ends, the state stays with the first kind or the
    handler ends; nothing is subscribed and every message carries that
    kind. *)
Lemma steps_without_end (answers : list answer) (resource : string)
    (remaining : list string) :
  Exhausted ∉ answers →
  omap is_stream (steps (Streaming resource remaining) answers).2 = [] ∧
  ∀ message, ws_send_json message ∈ (steps (Streaming resource remaining) answers).2 →
    ∃ ty object : json,
      message = JDict {["resource" := JStr resource; "type" := ty; "object" := object]}.
Proof.
  induction answers as [|a answers IH]; cbn [steps].
  - intros _. split; [done|]. intros message Hin. by apply elem_of_nil in Hin.
  - intros [Ha Hrest]%not_elem_of_cons. specialize (IH Hrest) as [IHs IHm].
    destruct (step (Streaming resource remaining) a) as [st1 out1] eqn:Hstep.
    destruct (steps st1 answers) as [st2 out2] eqn:Hsteps. cbn [snd].
    assert (Hout2 : (st1 = Closed ∨ st1 = Streaming resource remaining) →
      ∀ message, ws_send_json message ∈ out2 →
        ∃ ty object : json,
          message = JDict {["resource" := JStr resource; "type" := ty; "object" := object]}).
    { intros [-> | ->] message Hin.
      - rewrite steps_closed in Hsteps. injection Hsteps as _ <-.
        by apply elem_of_nil in Hin.
      - rewrite Hsteps in IHm. by apply IHm. }
    assert (Hstreams2 : (st1 = Closed ∨ st1 = Streaming resource remaining) →
                        omap is_stream out2 = []).
    { intros [-> | ->].
      - rewrite steps_closed in Hsteps. by injection Hsteps as _ <-.
      - by rewrite Hsteps in IHs. }
    cbn in Hstep. destruct a as [event send | | text]; [| done |].
    + destruct (message_of resource event) as [message' | e] eqn:Hmessage;
        [destruct send as [text|]|]; injection Hstep as <- <-;
        (split;
         [rewrite omap_app, Hstreams2 by auto; reflexivity
         |intros message; rewrite elem_of_app; intros [Hin | Hin];
          [|apply Hout2; [auto | done]]]).
      * unfold on_error in Hin. apply elem_of_cons in Hin as [[= ->] | Hin];
          [by apply (message_of_form _ _ _ Hmessage)|].
        exfalso. revert Hin. not_in_literal.
      * apply list_elem_of_singleton in Hin as [= ->].
        by apply (message_of_form _ _ _ Hmessage).
      * exfalso. revert Hin. not_in_literal.
    + injection Hstep as <- <-.
      split; [rewrite omap_app, Hstreams2 by auto; reflexivity|].
      intros message; rewrite elem_of_app; intros [Hin | Hin];
        [exfalso; revert Hin; not_in_literal|].
      apply Hout2; [auto | done].
Qed.

(** X15: the kinds are drained one after the other.  As long as the
    stream of the first kind does not end, "vpcs" is the only kind
    subscribed and every message sent is a "vpcs" message: events of the
    nineteen other kinds are not relayed. *)
Theorem relay_stays_on_a_kind_until_its_stream_ends (answers : list answer)
    (Hgoes_on : Exhausted ∉ answers) :
  omap is_stream (websocket_endpoint None answers).2 = ["vpcs"] ∧
  ∀ message, ws_send_json message ∈ (websocket_endpoint None answers).2 →
    ∃ ty object : json,
      message = JDict {["resource" := JStr "vpcs"; "type" := ty; "object" := object]}.
Proof.
  rewrite endpoint_accepted.
  destruct (steps_without_end answers "vpcs" (List.tl RESOURCES) Hgoes_on)
    as [Hstreams Hmessages].
  destruct (steps _ answers) as [st out]. cbn [snd] in *.
  split; [cbn; by rewrite Hstreams|].
  intros message Hin. apply elem_of_cons in Hin as [[=] | Hin].
  apply elem_of_cons in Hin as [[=] | Hin]. by apply Hmessages.
Qed.

Lemma relay_stays_on_a_kind_until_its_stream_ends_witness :
  (Exhausted ∉ [Yields (JDict {["type" := JStr "ADDED"; "object" := JNull]}) None;
                Yields (JDict {["type" := JStr "MODIFIED"; "object" := JNull]}) None]) ∧
  omap is_stream
    (websocket_endpoint None
       [Yields (JDict {["type" := JStr "ADDED"; "object" := JNull]}) None;
        Yields (JDict {["type" := JStr "MODIFIED"; "object" := JNull]}) None]).2
    = ["vpcs"].
Proof.
  assert (Hgoes_on :
    Exhausted ∉ [Yields (JDict {["type" := JStr "ADDED"; "object" := JNull]}) None;
                 Yields (JDict {["type" := JStr "MODIFIED"; "object" := JNull]}) None]).
  { intros Hin. repeat (apply elem_of_cons in Hin as [Hin | Hin]; [discriminate|]).
    by apply elem_of_nil in Hin. }
  split; [exact Hgoes_on|].
  exact (proj1 (relay_stays_on_a_kind_until_its_stream_ends _ Hgoes_on)).
Defined.

(** X16: an event without a "type", or without an "object", ends the
    relay.  Nothing is sent for it, whether or not the socket would have
    taken the message; the [KeyError] is printed with the missing key, the
    watch is stopped, and later events are not looked at. *)
Theorem relay_ends_on_an_event_without_type_or_object
    (answers later : list answer) (resource : string) (remaining : list string)
    (trace : list action) (event : gmap string json) (send : option string)
    (Hstreaming : websocket_endpoint None answers = (Streaming resource remaining, trace))
    (Hmissing : event !! "type" = None ∨ event !! "object" = None) :
  websocket_endpoint None (answers ++ Yields (JDict event) send :: later)%list =
    (Closed,
     (trace ++
      [print ("WebSocket error: " +:+
              match event !! "type" with
              | None => "'type'"
              | Some _ => "'object'"
              end);
       watch_stop])%list).
Proof.
  revert Hstreaming. rewrite !endpoint_accepted, steps_app.
  destruct (steps _ answers) as [st out]. intros [= -> <-].
  cbn [steps step]. unfold message_of. cbn [Py.getitem].
  destruct (event !! "type") as [ty|] eqn:Hty; cbn.
  - destruct Hmissing as [? | Hobject]; [done|]. rewrite Hobject. cbn.
    rewrite steps_closed. cbn. reflexivity.
  - rewrite steps_closed. cbn. reflexivity.
Qed.

Lemma relay_ends_on_an_event_without_type_or_object_witness :
  websocket_endpoint None [Exhausted]
    = (Streaming "subnets" (drop 2 RESOURCES),
       [ws_accept; watch_stream "kubeovn.io" "v1" "vpcs";
        watch_stream "kubeovn.io" "v1" "subnets"]) ∧
  (({["object" := JNull]} : gmap string json) !! "type" = None
   ∨ ({["object" := JNull]} : gmap string json) !! "object" = None) ∧
  websocket_endpoint None
    ([Exhausted] ++ Yields (JDict {["object" := JNull]}) None :: [Exhausted])%list =
    (Closed,
     [ws_accept; watch_stream "kubeovn.io" "v1" "vpcs";
      watch_stream "kubeovn.io" "v1" "subnets";
      print "WebSocket error: 'type'"; watch_stop]).
Proof.
  split; [reflexivity|]. split; [left; reflexivity|].
  exact (relay_ends_on_an_event_without_type_or_object
           [Exhausted] [Exhausted] "subnets" (drop 2 RESOURCES) _
           {["object" := JNull]} None eq_refl (or_introl eq_refl)).
Defined.

End RelayInvariants.

(** ** The kinds of the registry *)

Lemma kinds_NoDup : NoDup (resolve_kind <$> RESOURCES).
Proof. apply (bool_decide_unpack _). vm_compute. exact I. Qed.

(** X17: two registered plurals never resolve to the same kind: the kind
    written into a manifest determines the plural it was created
    under. *)
Theorem registered_plurals_have_distinct_kinds (resource1 resource2 : string)
    (Hregistered1 : resource1 ∈ RESOURCES)
    (Hregistered2 : resource2 ∈ RESOURCES)
    (Hkind : resolve_kind resource1 = resolve_kind resource2) :
  resource1 = resource2.
Proof.
  apply list_elem_of_lookup in Hregistered1 as [i Hi].
  apply list_elem_of_lookup in Hregistered2 as [j Hj].
  assert (Hij : i = j).
  { apply (NoDup_lookup (resolve_kind <$> RESOURCES) i j (resolve_kind resource1)
             kinds_NoDup).
    - by rewrite list_lookup_fmap, Hi.
    - by rewrite list_lookup_fmap, Hj, Hkind. }
  subst j. rewrite Hi in Hj. by injection Hj.
Qed.

Lemma registered_plurals_have_distinct_kinds_witness :
  "vips" ∈ RESOURCES ∧ "vips" ∈ RESOURCES ∧
  resolve_kind "vips" = resolve_kind "vips" ∧ "vips" = "vips".
Proof.
  assert (Hreg : "vips" ∈ RESOURCES) by by_evaluation.
  split; [exact Hreg|]. split; [exact Hreg|]. split; [reflexivity|].
  exact (registered_plurals_have_distinct_kinds "vips" "vips" Hreg Hreg eq_refl).
Defined.
